(** * cass MCP server: a shallow embedding of [mcp_server.py]

    The server wraps the external [cass] binary: [run_cass] runs it as a
    child process and normalises what comes back, [call_tool] translates a
    tool call into an argument list, and [BackgroundIndexer] supervises the
    watch child and the periodic index loop. [find_cass_binary] picks the
    binary at import, and the handler of [/indexer/trigger] starts an
    index run on request.

    Python values are modelled by [value]; exceptions by an error monad
    over a log of the child processes that were spawned; the indexer and
    its threads by a labelled step function. What belongs to the Python
    runtime and to the operating system (the child's exit code and output,
    [json.loads], [json.dumps], [repr] and the depth to which it recurses)
    is a [Variable] of the section. *)

From Stdlib Require Import ZArith Ascii String List.
From stdpp Require Import base decidable option list strings gmap fin_maps pretty.

#[local] Set Warnings "-register-all".
#[local] Open Scope string_scope.

(** ** Python values *)

(** The values a JSON document decodes to. A [str] is a sequence of code
    points below 256; floats are left out (every numeric tool parameter is
    declared an integer). A [dict] is compared the way Python's [==]
    compares it, by its bindings. *)
Inductive value : Type :=
| VNone
| VBool (b : bool)
| VInt (z : Z)
| VStr (s : string)
| VList (l : list value)
| VDict (d : gmap string value).

(** [bool(v)]: what an [if v:] tests. *)
Definition truthy (v : value) : bool :=
  match v with
  | VNone => false
  | VBool b => b
  | VInt z => negb (z =? 0)%Z
  | VStr s => match s with EmptyString => false | String _ _ => true end
  | VList l => match l with [] => false | _ :: _ => true end
  | VDict d => negb (bool_decide (d = ∅))
  end.

(** [type(v).__name__] *)
Definition type_name (v : value) : string :=
  match v with
  | VNone => "NoneType"
  | VBool _ => "bool"
  | VInt _ => "int"
  | VStr _ => "str"
  | VList _ => "list"
  | VDict _ => "dict"
  end.

Definition is_str (v : value) : bool :=
  match v with VStr _ => true | _ => false end.

(** A [list[str]] among the lists of values. *)
Definition str_args (args : list string) : list value := VStr <$> args.

(** A dict literal [{k1: v1, ...}]. *)
Definition py_dict (kvs : list (string * value)) : value :=
  VDict (list_to_map kvs).

(** [d.get(k)]: [None] when the key is missing. *)
Definition dict_get (d : gmap string value) (k : string) : value :=
  default VNone (d !! k).

(** [d.get(k, dflt)] *)
Definition dict_get_default (d : gmap string value) (k : string) (dflt : value) : value :=
  default dflt (d !! k).

(** ** Strings *)

(** [str.isspace] on one code point below 256: TAB..CR, FS..US, space,
    NEL (0x85) and NBSP (0xA0). *)
Definition py_isspace (c : ascii) : bool :=
  let n := nat_of_ascii c in
  ((9 <=? n)%nat && (n <=? 13)%nat) || ((28 <=? n)%nat && (n <=? 32)%nat)
  || (n =? 133)%nat || (n =? 160)%nat.

Fixpoint lstrip (s : string) : string :=
  match s with
  | EmptyString => EmptyString
  | String c s' => if py_isspace c then lstrip s' else s
  end.

Definition rstrip (s : string) : string :=
  String.rev (lstrip (String.rev s)).

(** [s.strip()] *)
Definition strip (s : string) : string := rstrip (lstrip s).

(** ** Exceptions *)

(** The classes a handler of the server tells apart; [OtherException] is
    any other subclass of [Exception] (OSError, ValueError, ...). What a
    signal raises in the middle of a call (KeyboardInterrupt, SystemExit)
    is no [Exception] and is not modelled. *)
Inductive exn_class : Type :=
| KeyError
| TypeError
| TimeoutExpired
| JSONDecodeError
| OtherException.

(** An exception: its class and [str(e)]. *)
Record exn : Type := Exn { exn_cls : exn_class; exn_str : string }.

(** A Python computation returns or raises. *)
Inductive res (A : Type) : Type :=
| Ret (a : A)
| Exc (e : exn).
Arguments Ret {A} a.
Arguments Exc {A} e.

Definition is_timeout (e : exn) : bool :=
  match exn_cls e with TimeoutExpired => true | _ => false end.

Definition is_json_decode_error (e : exn) : bool :=
  match exn_cls e with JSONDecodeError => true | _ => false end.

#[global] Instance res_ret : MRet res := λ A (a : A), Ret a.

#[global] Instance res_bind : MBind res := λ A B (k : A → res B) (r : res A),
  match r with
  | Ret a => k a
  | Exc e => Exc e
  end.

(** [d[k]]: raises [KeyError(k)], whose [str] is the key in quotes. *)
Definition getitem (d : gmap string value) (k : string) : res value :=
  match d !! k with
  | Some v => Ret v
  | None => Exc (Exn KeyError ("'" +:+ k +:+ "'"))
  end.

(** The decimal digits of an int, after a dash when negative: what
    [str(z)] gives when it returns. *)
Definition int_str (z : Z) : string := pretty z.
Arguments int_str : simpl never.

(** CPython limits the conversion of an int to text: with the default
    [sys.get_int_max_str_digits()] of 4300, [str] and [repr] of an int
    of more than 4300 decimal digits raise [ValueError]. *)
Definition int_printable (z : Z) : bool := (Z.abs z <? 10 ^ 4300)%Z.
Arguments int_printable : simpl never.

(** An int that Python adds to a float, as [communicate] adds the
    timeout to its clock: above the largest double the conversion
    raises [OverflowError]. *)
Definition float_convertible (z : Z) : bool := (Z.abs z <? 2 ^ 1024)%Z.
Arguments float_convertible : simpl never.

(** Whether [repr(v)] returns when the interpreter can still nest [depth]
    calls: every int in [v] is within the limit, and no container is
    nested deeper than [depth] (beyond that [repr] raises
    [RecursionError]). *)
Fixpoint repr_ok (depth : nat) (v : value) {struct depth} : bool :=
  match v with
  | VNone | VBool _ | VStr _ => true
  | VInt z => int_printable z
  | VList l =>
      match depth with
      | O => false
      | S n => forallb (repr_ok n) l
      end
  | VDict d =>
      match depth with
      | O => false
      | S n => bool_decide (map_Forall (λ _ x, repr_ok n x = true) d)
      end
  end.

(** [sep.join(items)]: every item must be a [str]. *)
Fixpoint py_join_from (i : nat) (sep : string) (items : list value) : res string :=
  match items with
  | [] => Ret ""
  | v :: rest =>
      match v with
      | VStr s =>
          match py_join_from (S i) sep rest with
          | Ret t => Ret (match rest with [] => s | _ :: _ => s +:+ sep +:+ t end)
          | Exc e => Exc e
          end
      | _ => Exc (Exn TypeError
                   ("sequence item " +:+ int_str (Z.of_nat i) +:+ ": expected str instance, "
                    +:+ type_name v +:+ " found"))
      end
  end.

Definition py_join (sep : string) (items : list value) : res string :=
  py_join_from 0 sep items.

(** [min(v, bound)] for an int [bound]: Python evaluates [bound < v] and
    keeps [v] unless that holds; a [bool] compares as 0 or 1, and no other
    type compares with an int. *)
Definition py_min_int (v : value) (bound : Z) : res value :=
  match v with
  | VInt z => Ret (if (bound <? z)%Z then VInt bound else v)
  | VBool b => Ret (if (bound <? (if b then 1 else 0))%Z then VInt bound else v)
  | _ => Exc (Exn TypeError
               ("'<' not supported between instances of 'int' and '"
                +:+ type_name v +:+ "'"))
  end.

(** ** Child processes and the monad of the request path *)

(** One call of [subprocess.run]: the command, the timeout, and the
    value of [CASS_DATA_DIR] in the child's environment. *)
Record invocation : Type := Invocation {
  inv_cmd : list value;
  inv_timeout : Z;
  inv_data_dir : string
}.

(** The arguments after the binary's path. *)
Definition inv_args (i : invocation) : list value := tail (inv_cmd i).

(** [subprocess.CompletedProcess] with [capture_output=True, text=True]. *)
Record CompletedProcess : Type := Completed {
  returncode : Z;
  stdout : string;
  stderr : string
}.

(** State: the invocations made so far, oldest first. *)
Definition M (A : Type) : Type := list invocation → res A * list invocation.

Definition raise {A} (e : exn) : M A := λ w, (Exc e, w).
Definition lift {A} (r : res A) : M A := λ w, (r, w).

#[global] Instance M_ret : MRet M := λ A (a : A) w, (Ret a, w).

#[global] Instance M_bind : MBind M := λ A B (k : A → M B) (m : M A) w,
  match m w with
  | (Ret a, w') => k a w'
  | (Exc e, w') => (Exc e, w')
  end.

(** [try: body / except Exception as e: handler(e)] *)
Definition try_except {A} (body : M A) (handler : exn → M A) : M A := λ w,
  match body w with
  | (Ret a, w') => (Ret a, w')
  | (Exc e, w') => handler e w'
  end.

(** [mcp.types.TextContent] *)
Record TextContent : Type := MkTextContent {
  content_type : string;
  text : string
}.

(** The ten names [list_tools] registers. *)
Definition tool_names : list string :=
  [ "cass_search"; "cass_stats"; "cass_capabilities"; "cass_timeline";
    "cass_context"; "cass_view"; "cass_expand"; "cass_export";
    "cass_health"; "cass_index" ].

(** [a] immediately followed by [b] in [l]. *)
Fixpoint adjacent (a b : value) (l : list value) : Prop :=
  match l with
  | x :: rest =>
      match rest with
      | y :: _ => (x = a ∧ y = b) ∨ adjacent a b rest
      | [] => False
      end
  | [] => False
  end.

(** ** Startup: where the binary is *)

Module Startup.
Section Environment.

(** [os.environ]; whether a path is a file the process may execute
    ([os.path.isfile(p) and os.access(p, os.X_OK)]); the text of
    [Path.home() / ".cargo/bin/cass"]; and [shutil.which("cass")]. *)
Variable environ : gmap string string.
Variable executable_file : string → bool.
Variable cargo_cass : string.
Variable which_cass : option string.

(** The candidates of lines 50-56, in their order. *)
Definition candidates : list (option string) :=
  [ Some "/app/cass"; Some "./cass"; Some "../target/release/cass";
    Some cargo_cass; which_cass ].

(** The loop of lines 58-60: the first candidate that is not [None], not
    empty, and an executable file. *)
Fixpoint first_candidate (cs : list (option string)) : res string :=
  match cs with
  | [] => Exc (Exn OtherException
                 "cass binary not found! Set CASS_BINARY environment variable or ensure cass is in PATH.")
  | Some candidate :: rest =>
      if negb (String.eqb candidate "") && executable_file candidate
      then Ret candidate
      else first_candidate rest
  | None :: rest => first_candidate rest
  end.

(** [find_cass_binary()], lines 42-64. *)
Definition find_cass_binary : res string :=
  match environ !! "CASS_BINARY" with
  | Some env_binary =>
      if negb (String.eqb env_binary "") && executable_file env_binary
      then Ret env_binary
      else first_candidate candidates
  | None => first_candidate candidates
  end.

(** The module constant [CASS_BINARY], lines 67-73. *)
Definition CASS_BINARY : string :=
  match find_cass_binary with
  | Ret found => found
  | Exc _ => "/app/cass"
  end.

End Environment.
End Startup.

Section Server.

(** The module constants, read from the environment at import:
    the path of the binary, [CASS_DATA_DIR], and [CASS_INDEX_INTERVAL]
    (300 by default). *)
Variable CASS_BINARY : string.
Variable DATA_DIR : string.
Variable INDEX_INTERVAL_SECONDS : Z.

(** The operating system: what [subprocess.run] does for an invocation,
    given the invocations before it. It returns the completed process or
    raises ([TimeoutExpired], [FileNotFoundError], [PermissionError], ...). *)
Variable os_run : list invocation → invocation → res CompletedProcess.

(** [json.loads]: the decoded value, or [JSONDecodeError] (or whatever
    else the decoder raises). *)
Variable json_loads : string → res value.

(** [json.dumps(v, indent=indent, default=str)]; [None] is no indent. *)
Variable json_dumps : option nat → value → string.

(** The text of [repr] of a list or a dict, when [repr] returns. *)
Variable py_repr : value → string.

(** How deep a value may be nested for [repr] to print it where
    [call_tool] stands; and the exception [str] and [repr] raise for a
    value they cannot print: [ValueError] for an int over the limit,
    [RecursionError] for a value nested too deep. Its class and its text,
    which differ between versions of Python, are left open. *)
Variable REPR_DEPTH : nat.
Variable repr_error : exn.

(** The text of [str(v)], when [str] returns. *)
Definition str_text (v : value) : string :=
  match v with
  | VNone => "None"
  | VBool true => "True"
  | VBool false => "False"
  | VInt z => int_str z
  | VStr s => s
  | VList _ | VDict _ => py_repr v
  end.

(** [str(v)]; for a list or a dict it is [repr(v)]. *)
Definition py_str (v : value) : res string :=
  if repr_ok REPR_DEPTH v then Ret (str_text v) else Exc repr_error.
Arguments py_str : simpl never.

(** [subprocess.run(cmd, capture_output=True, text=True, timeout=timeout,
    env={**os.environ, "CASS_DATA_DIR": data_dir})] *)
Definition subprocess_run (cmd : list value) (timeout : Z) (data_dir : string)
  : M CompletedProcess := λ w,
  let i := Invocation cmd timeout data_dir in
  (os_run w i, (w ++ [i])%list).

(** [run_cass(args, timeout)], lines 271-302. The clause for
    [TimeoutExpired] formats [timeout]; [subprocess.run] has then added
    it to a float ([communicate] computes its deadline), which raises
    [OverflowError] above 1.8e308, so a timeout that reaches the clause
    is far below the limit of [int_printable]. *)
Definition run_cass (args : list value) (timeout : Z) : M value :=
  let cmd := VStr CASS_BINARY :: args in
  _ ← lift (py_join " " cmd);
  try_except
    (result ← subprocess_run cmd timeout DATA_DIR;
     if negb (returncode result =? 0)%Z then
       mret (py_dict [ ("error", VBool true);
                      ("exit_code", VInt (returncode result));
                      ("stderr", VStr (strip (stderr result)));
                      ("stdout", VStr (strip (stdout result))) ])
     else
       try_except
         (lift (json_loads (stdout result)))
         (λ e, if is_json_decode_error e
               then mret (py_dict [ ("output", VStr (strip (stdout result))) ])
               else raise e))
    (λ e, if is_timeout e
          then mret (py_dict [ ("error", VBool true);
                              ("message", VStr ("Command timed out after "
                                                +:+ int_str timeout +:+ "s")) ])
          else mret (py_dict [ ("error", VBool true);
                              ("message", VStr (exn_str e)) ])).

(** The two [except] clauses of [run_cass], lines 299-302, as one
    function of the exception. *)
Definition handled (timeout : Z) (e : exn) : value :=
  if is_timeout e
  then py_dict [ ("error", VBool true);
                 ("message", VStr ("Command timed out after " +:+ int_str timeout +:+ "s")) ]
  else py_dict [ ("error", VBool true); ("message", VStr (exn_str e)) ].

(** [if arguments.get(key): args.extend([flag, arguments[key]])] *)
Definition extend_value (arguments : gmap string value) (key flag : string)
    (args : list value) : res (list value) :=
  if truthy (dict_get arguments key) then
    v ← getitem arguments key;
    mret (args ++ [VStr flag; v])%list
  else mret args.

(** [if arguments.get(key): args.extend([flag, str(arguments[key])])] *)
Definition extend_str (arguments : gmap string value) (key flag : string)
    (args : list value) : res (list value) :=
  if truthy (dict_get arguments key) then
    v ← getitem arguments key;
    s ← py_str v;
    mret (args ++ [VStr flag; VStr s])%list
  else mret args.

(** [if arguments.get(key): args.append(flag)] *)
Definition append_flag (arguments : gmap string value) (key flag : string)
    (args : list value) : list value :=
  if truthy (dict_get arguments key) then (args ++ [VStr flag])%list else args.

(** A value the schema's [string] type admits, or one the [if] skips. *)
Definition str_or_falsy (v : value) : bool := is_str v || negb (truthy v).

(** The string parameters of a [cass_search] call that reach the
    command line are strings: [query] is one, and [agent] and
    [workspace] are strings where they are given. *)
Definition search_call_typed (arguments : gmap string value) : bool :=
  match arguments !! "query" with Some (VStr _) => true | _ => false end
  && str_or_falsy (dict_get arguments "agent")
  && str_or_falsy (dict_get arguments "workspace").

(** The [cass_search] branch, lines 557-570. The limit is clamped with
    [min(arguments["limit"], 100)]. *)
Definition search_args (arguments : gmap string value) : res (list value) :=
  query ← getitem arguments "query";
  let args := [VStr "search"; query; VStr "--json"] in
  args ← extend_value arguments "agent" "--agent" args;
  args ← extend_value arguments "workspace" "--workspace" args;
  args ← (if truthy (dict_get arguments "limit") then
            limit ← getitem arguments "limit";
            clamped ← py_min_int limit 100;
            s ← py_str clamped;
            mret (args ++ [VStr "--limit"; VStr s])%list
          else mret args);
  args ← extend_str arguments "days" "--days" args;
  let args := append_flag arguments "today" "--today" args in
  let args := append_flag arguments "highlight" "--highlight" args in
  mret args.

(** The caller itself passes the text [flag] as a value that
    [search_args] copies to the command line. *)
Definition supplies (arguments : gmap string value) (flag : string) : Prop :=
  dict_get arguments "query" = VStr flag
  ∨ dict_get arguments "agent" = VStr flag
  ∨ dict_get arguments "workspace" = VStr flag
  ∨ str_text (dict_get arguments "days") = flag.

(** The [cass_timeline] branch, lines 581-593. *)
Definition timeline_args (arguments : gmap string value) : res (list value) :=
  let args := [VStr "timeline"; VStr "--json"] in
  args ← (if truthy (dict_get arguments "today") then
            mret (args ++ [VStr "--today"])%list
          else if truthy (dict_get arguments "days") then
            days ← getitem arguments "days";
            s ← py_str days;
            mret (args ++ [VStr "--days"; VStr s])%list
          else mret (args ++ [VStr "--days"; VStr "7"])%list);
  args ← extend_value arguments "group_by" "--group-by" args;
  args ← extend_value arguments "agent" "--agent" args;
  mret args.

(** The [cass_context] branch, lines 598-600. *)
Definition context_args (arguments : gmap string value) : res (list value) :=
  path ← getitem arguments "path";
  let args := [VStr "context"; path; VStr "--json"] in
  extend_str arguments "limit" "--limit" args.

(** The [cass_view] branch, lines 604-608. *)
Definition view_args (arguments : gmap string value) : res (list value) :=
  path ← getitem arguments "path";
  let args := [VStr "view"; path; VStr "--json"] in
  args ← extend_str arguments "line" "-n" args;
  extend_str arguments "context" "-C" args.

(** The [cass_expand] branch, lines 612-614. *)
Definition expand_args (arguments : gmap string value) : res (list value) :=
  path ← getitem arguments "path";
  line ← getitem arguments "line";
  s ← py_str line;
  let args := [VStr "expand"; path; VStr "-n"; VStr s; VStr "--json"] in
  extend_str arguments "context" "-C" args.

(** The [cass_export] branch, lines 618-620. *)
Definition export_args (arguments : gmap string value) : res (list value) :=
  path ← getitem arguments "path";
  let args := [VStr "export"; path] in
  let fmt := dict_get_default arguments "format" (VStr "markdown") in
  mret (args ++ [VStr "--format"; fmt])%list.

(** The [cass_index] branch, lines 627-629. *)
Definition index_args (arguments : gmap string value) : list value :=
  append_flag arguments "full" "--full" [VStr "index"].

(** The body of the [try] of [call_tool], lines 556-633: the tool's
    result before it is serialised. *)
Definition call_tool_result (name : string) (arguments : gmap string value)
  : M value :=
  if decide (name = "cass_search") then
    args ← lift (search_args arguments); run_cass args 30
  else if decide (name = "cass_stats") then
    run_cass [VStr "stats"; VStr "--json"] 30
  else if decide (name = "cass_capabilities") then
    run_cass [VStr "capabilities"; VStr "--json"] 30
  else if decide (name = "cass_timeline") then
    args ← lift (timeline_args arguments); run_cass args 30
  else if decide (name = "cass_context") then
    args ← lift (context_args arguments); run_cass args 30
  else if decide (name = "cass_view") then
    args ← lift (view_args arguments); run_cass args 30
  else if decide (name = "cass_expand") then
    args ← lift (expand_args arguments); run_cass args 30
  else if decide (name = "cass_export") then
    args ← lift (export_args arguments); run_cass args 60
  else if decide (name = "cass_health") then
    run_cass [VStr "health"; VStr "--json"] 30
  else if decide (name = "cass_index") then
    run_cass (index_args arguments) 300
  else
    mret (py_dict [ ("error", VBool true);
                    ("message", VStr ("Unknown tool: " +:+ name)) ]).

(** The [try] statement of [call_tool], lines 555-645. *)
Definition call_tool_try (name : string) (arguments : gmap string value)
  : M (list TextContent) :=
  try_except
    (result ← call_tool_result name arguments;
     mret [ MkTextContent "text" (json_dumps (Some 2) result) ])
    (λ e, mret [ MkTextContent "text"
                   (json_dumps None
                      (py_dict [ ("error", VBool true);
                                 ("message", VStr (exn_str e)) ])) ]).

(** [call_tool(name, arguments)], lines 551-645. The log line of line
    553 formats [arguments] (the text of a dict in an f-string is its
    [repr]) before the [try] is entered. *)
Definition call_tool (name : string) (arguments : gmap string value)
  : M (list TextContent) :=
  _ ← lift (py_str (VDict arguments));
  call_tool_try name arguments.

(** ** The background indexer *)

(** A child process as [Popen] sees it: running, or exited with a code;
    and what it wrote to its stderr pipe. *)
Inductive proc_status : Type :=
| Running
| Exited (code : Z).

Record process : Type := Process {
  proc_status_of : proc_status;
  proc_stderr : string
}.

(** [Popen.poll()]: [None] while the child runs. *)
Definition poll (p : process) : option Z :=
  match proc_status_of p with
  | Running => None
  | Exited code => Some code
  end.

(** Where a thread running [_monitor_watch_process] stands. *)
Inductive monitor_pc : Type :=
| MonEntry     (* line 147: if not self._watch_process *)
| MonLoop      (* line 150: while not self._stop_event.is_set() *)
| MonPoll      (* lines 152-156: poll, read stderr, log *)
| MonSleep     (* line 165: time.sleep(10) *)
| MonRecheck   (* line 158: if not self._stop_event.is_set() *)
| MonBackoff   (* line 161: time.sleep(5) *)
| MonRestart.  (* line 162: self._start_watch_mode() *)

(** Where a thread running [_periodic_index_loop] stands. *)
Inductive periodic_pc : Type :=
| PerLoop      (* line 180: while not self._stop_event.is_set() *)
| PerWait      (* line 182: self._stop_event.wait(timeout=...) *)
| PerCheck     (* line 185: if not self._stop_event.is_set() *)
| PerIndex.    (* line 187: self._run_index(full=False) *)

Inductive thread : Type :=
| WatchMonitor (pc : monitor_pc)
| PeriodicIndexer (pc : periodic_pc)
| ManualIndex (full : bool)
| Finished.

Inductive level : Type := INFO | WARNING | ERROR.

(** What the supervisor asks of the operating system. *)
Inductive os_event : Type :=
| Popen (cmd : list string) (data_dir : string) (pid : nat)
| Run (cmd : list string) (timeout : Z) (data_dir : string)
| Sleep (seconds : Z)
| Terminate (pid : nat)
| Wait (pid : nat) (timeout : Z)
| Kill (pid : nat).

(** The fields of [BackgroundIndexer]; the [Popen] handle is the child's
    pid, the thread handle the thread's index, a [datetime] a number. *)
Record BackgroundIndexer : Type := MkIndexer {
  cass_binary : string;
  data_dir : string;
  _watch_process : option nat;
  _periodic_thread : option nat;
  _stop_event : bool;
  _last_index_time : option Z;
  _index_count : Z;
  _is_running : bool
}.

(** [BackgroundIndexer.__init__], lines 86-94. *)
Definition init (cass_binary data_dir : string) : BackgroundIndexer :=
  MkIndexer cass_binary data_dir None None false None 0 false.

(** The indexer with the processes it spawned (a pid is a position in
    [procs]), its threads, the requests it made and what it logged. *)
Record system : Type := MkSystem {
  ix : BackgroundIndexer;
  procs : list process;
  threads : list thread;
  events : list os_event;
  logged : list (level * string)
}.

(** What the environment answers while a method runs. *)
Record os_reply : Type := Reply {
  reply_index : res CompletedProcess;  (* subprocess.run of the index command *)
  reply_now : Z;                       (* datetime.now() *)
  reply_popen : option exn;            (* None: Popen returns a handle *)
  reply_grace : bool;                  (* the child exits within 5s of SIGTERM *)
  reply_read : option exn              (* None: stderr.read() returns the text *)
}.

Definition with_ix (f : BackgroundIndexer → BackgroundIndexer) (s : system) : system :=
  MkSystem (f (ix s)) (procs s) (threads s) (events s) (logged s).

Definition set_watch_process (h : option nat) (self : BackgroundIndexer) :=
  MkIndexer (cass_binary self) (data_dir self) h (_periodic_thread self)
    (_stop_event self) (_last_index_time self) (_index_count self) (_is_running self).

Definition set_periodic_thread (h : option nat) (self : BackgroundIndexer) :=
  MkIndexer (cass_binary self) (data_dir self) (_watch_process self) h
    (_stop_event self) (_last_index_time self) (_index_count self) (_is_running self).

Definition set_stop_event (b : bool) (self : BackgroundIndexer) :=
  MkIndexer (cass_binary self) (data_dir self) (_watch_process self) (_periodic_thread self)
    b (_last_index_time self) (_index_count self) (_is_running self).

Definition set_last_index_time (t : option Z) (self : BackgroundIndexer) :=
  MkIndexer (cass_binary self) (data_dir self) (_watch_process self) (_periodic_thread self)
    (_stop_event self) t (_index_count self) (_is_running self).

Definition set_index_count (n : Z) (self : BackgroundIndexer) :=
  MkIndexer (cass_binary self) (data_dir self) (_watch_process self) (_periodic_thread self)
    (_stop_event self) (_last_index_time self) n (_is_running self).

Definition set_is_running (b : bool) (self : BackgroundIndexer) :=
  MkIndexer (cass_binary self) (data_dir self) (_watch_process self) (_periodic_thread self)
    (_stop_event self) (_last_index_time self) (_index_count self) b.

Definition set_procs (ps : list process) (s : system) : system :=
  MkSystem (ix s) ps (threads s) (events s) (logged s).

Definition set_thread (tid : nat) (t : thread) (s : system) : system :=
  MkSystem (ix s) (procs s) (<[tid := t]> (threads s)) (events s) (logged s).

(** [threading.Thread(target=...).start()] *)
Definition spawn (t : thread) (s : system) : system :=
  MkSystem (ix s) (procs s) (threads s ++ [t])%list (events s) (logged s).

Definition emit (e : os_event) (s : system) : system :=
  MkSystem (ix s) (procs s) (threads s) (events s ++ [e])%list (logged s).

Definition log (l : level) (msg : string) (s : system) : system :=
  MkSystem (ix s) (procs s) (threads s) (events s) (logged s ++ [(l, msg)])%list.

(** [handle.poll() is None] *)
Definition proc_alive (s : system) (pid : nat) : bool :=
  match procs s !! pid with
  | Some p => match poll p with None => true | Some _ => false end
  | None => false
  end.

(** [thread.is_alive()] *)
Definition thread_alive (s : system) (tid : nat) : bool :=
  match threads s !! tid with
  | Some Finished | None => false
  | Some _ => true
  end.

(** The dict [get_status] returns. *)
Record status : Type := Status {
  is_running : bool;
  mode : string;
  watch_pid : option nat;
  last_index_time : option Z;
  index_count : Z;
  index_interval_seconds : option Z
}.

(** [_run_index(full)], lines 189-215. The time and the count are set
    once [subprocess.run] has returned; the exit code only picks the log
    line. *)
Definition _run_index (full : bool) (r : os_reply) (s : system) : system :=
  let cmd := ([cass_binary (ix s); "index"] ++ (if full then ["--full"] else []))%list in
  let s := emit (Run cmd 300 (data_dir (ix s))) s in
  match reply_index r with
  | Ret result =>
      let s := with_ix (set_last_index_time (Some (reply_now r))) s in
      let s := with_ix (λ self, set_index_count (_index_count self + 1) self) s in
      if (returncode result =? 0)%Z then
        log INFO ("Index completed successfully (count: "
                  +:+ int_str (_index_count (ix s)) +:+ ")") s
      else
        log WARNING ("Index completed with errors: " +:+ stderr result) s
  | Exc e =>
      if is_timeout e then log ERROR "Index operation timed out" s
      else log ERROR ("Index operation failed: " +:+ exn_str e) s
  end.

(** [_start_periodic_indexing], lines 167-176. *)
Definition _start_periodic_indexing (s : system) : system :=
  let s := log INFO ("Starting periodic indexing (interval: "
                     +:+ int_str INDEX_INTERVAL_SECONDS +:+ "s)") s in
  let s := with_ix (set_periodic_thread (Some (length (threads s)))) s in
  spawn (PeriodicIndexer PerLoop) s.

(** [_start_watch_mode], lines 117-143. *)
Definition _start_watch_mode (r : os_reply) (s : system) : system :=
  let cmd := [cass_binary (ix s); "index"; "--watch"] in
  let s := log INFO ("Starting watch mode: " +:+ String.concat " " cmd) s in
  match reply_popen r with
  | None =>
      let pid := length (procs s) in
      let s := emit (Popen cmd (data_dir (ix s)) pid) s in
      let s := set_procs (procs s ++ [Process Running ""])%list s in
      let s := with_ix (set_watch_process (Some pid)) s in
      let s := spawn (WatchMonitor MonEntry) s in
      log INFO ("Watch mode started (PID: " +:+ int_str (Z.of_nat pid) +:+ ")") s
  | Some e =>
      let s := log ERROR ("Failed to start watch mode: " +:+ exn_str e
                          +:+ ", falling back to periodic indexing") s in
      _start_periodic_indexing s
  end.

(** [start(use_watch_mode, initial_index)], lines 96-115. *)
Definition start (use_watch_mode initial_index : bool) (r : os_reply) (s : system)
  : system :=
  if _is_running (ix s) then log WARNING "Background indexer already running" s
  else
    let s := with_ix (set_is_running true) s in
    let s := with_ix (set_stop_event false) s in
    let s := if initial_index
             then _run_index false r (log INFO "Running initial index..." s)
             else s in
    if use_watch_mode then _start_watch_mode r s
    else _start_periodic_indexing s.

(** One step of a thread running [_monitor_watch_process], lines 145-165.
    The pipe of the child's stderr is opened with [text=True]: when the
    child wrote bytes that do not decode, [stderr.read()] of line 155
    raises [UnicodeDecodeError]; no [try] stands around it, and the
    thread ends with the exception. *)
Definition monitor_step (tid : nat) (pc : monitor_pc) (r : os_reply) (s : system)
  : system :=
  match pc with
  | MonEntry =>
      match _watch_process (ix s) with
      | None => set_thread tid Finished s
      | Some _ => set_thread tid (WatchMonitor MonLoop) s
      end
  | MonLoop =>
      if _stop_event (ix s) then set_thread tid Finished s
      else set_thread tid (WatchMonitor MonPoll) s
  | MonPoll =>
      match _watch_process (ix s) ≫= (λ pid, procs s !! pid) with
      | Some p =>
          match poll p with
          | Some code =>
              match reply_read r with
              | None =>
                  let s := log WARNING ("Watch process exited with code "
                                        +:+ int_str code +:+ ": " +:+ proc_stderr p) s in
                  set_thread tid (WatchMonitor MonRecheck) s
              | Some _ => set_thread tid Finished s
              end
          | None => set_thread tid (WatchMonitor MonSleep) s
          end
      | None => set_thread tid Finished s
      end
  | MonSleep =>
      set_thread tid (WatchMonitor MonLoop) (emit (Sleep 10) s)
  | MonRecheck =>
      if _stop_event (ix s) then set_thread tid Finished s
      else set_thread tid (WatchMonitor MonBackoff) (log INFO "Restarting watch mode..." s)
  | MonBackoff =>
      set_thread tid (WatchMonitor MonRestart) (emit (Sleep 5) s)
  | MonRestart =>
      set_thread tid Finished (_start_watch_mode r s)
  end.

(** One step of a thread running [_periodic_index_loop], lines 178-187.
    [wait] returns at once when the event is set, and after the interval
    otherwise. *)
Definition periodic_step (tid : nat) (pc : periodic_pc) (r : os_reply) (s : system)
  : system :=
  match pc with
  | PerLoop =>
      if _stop_event (ix s) then set_thread tid Finished s
      else set_thread tid (PeriodicIndexer PerWait) s
  | PerWait =>
      if _stop_event (ix s) then set_thread tid Finished s
      else set_thread tid (PeriodicIndexer PerCheck) (emit (Sleep INDEX_INTERVAL_SECONDS) s)
  | PerCheck =>
      if _stop_event (ix s) then set_thread tid (PeriodicIndexer PerLoop) s
      else set_thread tid (PeriodicIndexer PerIndex)
             (log INFO "Running periodic incremental index..." s)
  | PerIndex =>
      set_thread tid (PeriodicIndexer PerLoop) (_run_index false r s)
  end.

(** [trigger_index(full)], lines 217-224. *)
Definition trigger_index (full : bool) (s : system) : system :=
  spawn (ManualIndex full) s.

(** [stop()], lines 226-241. A child that gets SIGTERM and exits within
    the 5 seconds of [wait] has code -15. One that does not is sent
    SIGKILL, and [stop()] returns without waiting for it: the child is
    still running until its exit is seen ([ChildExit] below). *)
Definition stop (r : os_reply) (s : system) : system :=
  let s := log INFO "Stopping background indexer..." s in
  let s := with_ix (set_stop_event true) s in
  let s := with_ix (set_is_running false) s in
  let s :=
    match _watch_process (ix s) with
    | Some pid =>
        if proc_alive s pid then
          let s := log INFO ("Terminating watch process (PID: " +:+ int_str (Z.of_nat pid) +:+ ")") s in
          let s := emit (Terminate pid) s in
          let s := emit (Wait pid 5) s in
          if reply_grace r then
            set_procs (alter (λ p, Process (Exited (-15)) (proc_stderr p)) pid (procs s)) s
          else emit (Kill pid) s
        else s
    | None => s
    end in
  log INFO "Background indexer stopped" s.

(** [get_status()], lines 243-261. *)
Definition get_status (s : system) : status :=
  let self := ix s in
  let watch_running :=
    match _watch_process self with
    | Some pid => proc_alive s pid
    | None => false
    end in
  let periodic_running :=
    match _periodic_thread self with
    | Some tid => thread_alive s tid
    | None => false
    end in
  {| is_running := _is_running self;
     mode := if watch_running then "watch"
             else if periodic_running then "periodic" else "stopped";
     watch_pid := if watch_running then _watch_process self else None;
     last_index_time := _last_index_time self;
     index_count := _index_count self;
     index_interval_seconds :=
       if periodic_running then Some INDEX_INTERVAL_SECONDS else None |}.

(** What can happen next: a call from the main thread, a step of one
    of the indexer's threads, or the exit of a child. A call from the
    main thread runs to its end in one transition; the threads of the
    indexer take their turns between such calls, one statement at a time. *)
Inductive label : Type :=
| CallStart (use_watch_mode initial_index : bool)
| CallStop
| CallTrigger (full : bool)
| ThreadStep (tid : nat)
| ChildExit (pid : nat) (code : Z) (err : string).

(** One transition; [None] when the label is not enabled (the thread
    has finished, the child is not running). *)
Definition step (l : label) (r : os_reply) (s : system) : option system :=
  match l with
  | CallStart use_watch_mode initial_index => Some (start use_watch_mode initial_index r s)
  | CallStop => Some (stop r s)
  | CallTrigger full => Some (trigger_index full s)
  | ThreadStep tid =>
      match threads s !! tid with
      | Some (WatchMonitor pc) => Some (monitor_step tid pc r s)
      | Some (PeriodicIndexer pc) => Some (periodic_step tid pc r s)
      | Some (ManualIndex full) => Some (set_thread tid Finished (_run_index full r s))
      | Some Finished | None => None
      end
  | ChildExit pid code err =>
      if proc_alive s pid
      then Some (set_procs (<[pid := Process (Exited code) err]> (procs s)) s)
      else None
  end.

(** A schedule, run from [s]. *)
Fixpoint exec (sched : list (label * os_reply)) (s : system) : option system :=
  match sched with
  | [] => Some s
  | (l, r) :: rest =>
      match step l r s with
      | Some s' => exec rest s'
      | None => None
      end
  end.

(** ** A small runtime, to run the model on concrete inputs *)

Definition LF : string := String (ascii_of_nat 10) "".

(** The binary answers [search] with an empty JSON list, [stats] with
    exit code 2, [health] with text that is no JSON; [index] times out and
    anything else cannot be launched. *)
Definition sample_os_run (w : list invocation) (i : invocation) : res CompletedProcess :=
  match inv_args i with
  | VStr "search" :: _ => Ret (Completed 0 "[]" "")
  | VStr "stats" :: _ => Ret (Completed 2 " partial " ("index corrupted" +:+ LF))
  | VStr "health" :: _ => Ret (Completed 0 ("ok" +:+ LF) "")
  | VStr "index" :: _ => Exc (Exn TimeoutExpired "Command timed out")
  | _ => Exc (Exn OtherException "[Errno 13] Permission denied: '/app/cass'")
  end.

(** A decoder that knows the empty list and the empty object. *)
Definition sample_json_loads (s : string) : res value :=
  if decide (s = "[]") then Ret (VList [])
  else if decide (s = "{}") then Ret (VDict ∅)
  else Exc (Exn JSONDecodeError "Expecting value: line 1 column 1 (char 0)").

(** An encoder for the same two documents. *)
Definition sample_json_dumps (indent : option nat) (v : value) : string :=
  match v with
  | VList [] => "[]"
  | VDict d => if bool_decide (d = ∅) then "{}" else "{...}"
  | _ => "..."
  end.

Definition sample_repr (v : value) : string := "[...]".

(** What Python 3.11 raises for an int of more than 4300 digits. *)
Definition sample_repr_error : exn :=
  Exn OtherException
    "Exceeds the limit (4300 digits) for integer string conversion; use sys.set_int_max_str_digits() to increase the limit".

(** The indexer right after [BackgroundIndexer(CASS_BINARY, DATA_DIR)]. *)
Definition fresh_system : system :=
  MkSystem (init "/app/cass" "/data") [] [] [] [].

(** An environment in which everything works: the index command exits
    with 0 at time 1000, [Popen] succeeds, a child obeys SIGTERM. *)
Definition reply_ok : os_reply :=
  Reply (Ret (Completed 0 "" "")) 1000 None true None.

(** The index command exits with 1 at time 2000. *)
Definition reply_index_failed : os_reply :=
  Reply (Ret (Completed 1 "" "index corrupted")) 2000 None true None.

(** A watch child (pid 0) that has exited with code 1, its monitor
    thread at the top of [_monitor_watch_process], and no stop request. *)
Definition watch_child_exited : system :=
  MkSystem (MkIndexer "/app/cass" "/data" (Some 0) None false None 0 true)
    [Process (Exited 1) "watch failed"]
    [WatchMonitor MonEntry]
    [Popen ["/app/cass"; "index"; "--watch"] "/data" 0]
    [].

(** The call of the clamping scenario, and the same call with limit 0. *)
Definition search_250 : gmap string value :=
  <["query" := VStr "auth error"]> (<["limit" := VInt 250]> ∅).

Definition search_0 : gmap string value :=
  <["query" := VStr "auth error"]> (<["limit" := VInt 0]> ∅).

(** The monitor is in its polling loop, lines 147-165 without the
    restart. *)
Definition polling (pc : monitor_pc) : bool :=
  match pc with
  | MonEntry | MonLoop | MonPoll | MonSleep => true
  | MonRecheck | MonBackoff | MonRestart => false
  end.

(** The steps from [pc] to the return from [_start_watch_mode], when the
    child has exited and nobody stops the indexer. *)
Definition steps_to_restart (pc : monitor_pc) : nat :=
  match pc with
  | MonSleep => 6
  | MonEntry => 6
  | MonLoop => 5
  | MonPoll => 4
  | MonRecheck => 3
  | MonBackoff => 2
  | MonRestart => 1
  end.

(** The watch child dies, the monitor sees it and starts its backoff;
    [stop()] runs during the backoff; the monitor wakes up and restarts
    watch mode; the new monitor sees the stop flag and returns. *)
Definition stop_during_backoff : list (label * os_reply) :=
  [ (CallStart true false, reply_ok);
    (ChildExit 0 1 "watch failed", reply_ok);
    (ThreadStep 0, reply_ok);   (* line 147 *)
    (ThreadStep 0, reply_ok);   (* line 150 *)
    (ThreadStep 0, reply_ok);   (* lines 152-156: the child has exited *)
    (ThreadStep 0, reply_ok);   (* line 158: the stop flag is not set *)
    (CallStop, reply_ok);       (* stop() from the main thread *)
    (ThreadStep 0, reply_ok);   (* line 161: the sleep ends *)
    (ThreadStep 0, reply_ok);   (* line 162: _start_watch_mode() *)
    (ThreadStep 1, reply_ok);   (* the new monitor, line 147 *)
    (ThreadStep 1, reply_ok) ]. (* line 150: the stop flag is set *)

(** ** The tool catalogue and the argument builders in closed form *)

(** A [Tool] of [list_tools], lines 305-547: its name, the names of the
    properties of its input schema, and the schema's [required] list. *)
Record Tool : Type := MkTool {
  tool_name : string;
  tool_properties : list string;
  tool_required : list string
}.

Definition list_tools : list Tool :=
  [ MkTool "cass_search"
      ["query"; "agent"; "workspace"; "limit"; "days"; "today"; "highlight"]
      ["query"];
    MkTool "cass_stats" [] [];
    MkTool "cass_capabilities" [] [];
    MkTool "cass_timeline" ["days"; "today"; "group_by"; "agent"] [];
    MkTool "cass_context" ["path"; "limit"] ["path"];
    MkTool "cass_view" ["path"; "line"; "context"] ["path"];
    MkTool "cass_expand" ["path"; "line"; "context"] ["path"; "line"];
    MkTool "cass_export" ["path"; "format"] ["path"];
    MkTool "cass_health" [] [];
    MkTool "cass_index" ["full"] [] ].

(** The [tools] list of the [info] endpoint, lines 719-723. *)
Definition info_tools : list string :=
  [ "cass_search"; "cass_stats"; "cass_capabilities"; "cass_timeline";
    "cass_context"; "cass_view"; "cass_expand"; "cass_export";
    "cass_health"; "cass_index" ].

(** The timeout [call_tool] passes to [run_cass] for a tool: 60 for the
    export, 300 for the index, the default of 30 otherwise. *)
Definition tool_timeout (name : string) : Z :=
  if decide (name = "cass_export") then 60
  else if decide (name = "cass_index") then 300
  else 30.

(** What [extend_value] appends. *)
Definition opt_value (arguments : gmap string value) (key flag : string) : list value :=
  if truthy (dict_get arguments key) then [VStr flag; dict_get arguments key] else [].

(** What [extend_str] appends. *)
Definition opt_str (arguments : gmap string value) (key flag : string) : list value :=
  if truthy (dict_get arguments key)
  then [VStr flag; VStr (str_text (dict_get arguments key))] else [].

(** What [append_flag] appends. *)
Definition opt_flag (arguments : gmap string value) (key flag : string) : list value :=
  if truthy (dict_get arguments key) then [VStr flag] else [].

(** The date arguments of [cass_timeline]. *)
Definition timeline_dates (arguments : gmap string value) : list value :=
  if truthy (dict_get arguments "today") then [VStr "--today"]
  else if truthy (dict_get arguments "days")
  then [VStr "--days"; VStr (str_text (dict_get arguments "days"))]
  else [VStr "--days"; VStr "7"].

(** The position of the first item of [items] that is no [str]. *)
Fixpoint first_non_str (items : list value) : option (nat * value) :=
  match items with
  | [] => None
  | VStr _ :: rest => prod_map S id <$> first_non_str rest
  | v :: _ => Some (0, v)
  end.

(** The message of the [TypeError] that [" ".join] raises for the
    item [v] at position [i]. *)
Definition join_error (i : nat) (v : value) : string :=
  "sequence item " +:+ int_str (Z.of_nat i) +:+ ": expected str instance, "
  +:+ type_name v +:+ " found".

(** The payload of [call_tool] for an exception with message [msg]. *)
Definition error_payload (msg : string) : list TextContent :=
  [ MkTextContent "text"
      (json_dumps None (py_dict [ ("error", VBool true); ("message", VStr msg) ])) ].

(** The argument list [call_tool] builds for a tool, lines 556-630;
    [None] for a name it does not know. *)
Definition tool_args (name : string) (arguments : gmap string value)
  : option (res (list value)) :=
  if decide (name = "cass_search") then Some (search_args arguments)
  else if decide (name = "cass_stats") then Some (Ret [VStr "stats"; VStr "--json"])
  else if decide (name = "cass_capabilities")
  then Some (Ret [VStr "capabilities"; VStr "--json"])
  else if decide (name = "cass_timeline") then Some (timeline_args arguments)
  else if decide (name = "cass_context") then Some (context_args arguments)
  else if decide (name = "cass_view") then Some (view_args arguments)
  else if decide (name = "cass_expand") then Some (expand_args arguments)
  else if decide (name = "cass_export") then Some (export_args arguments)
  else if decide (name = "cass_health") then Some (Ret [VStr "health"; VStr "--json"])
  else if decide (name = "cass_index") then Some (Ret (index_args arguments))
  else None.

(** ** The indexer: what the proofs talk about *)

(** The steps a periodic thread takes to its end once the stop flag is
    set. *)
Definition periodic_steps_to_finish (pc : periodic_pc) : nat :=
  match pc with
  | PerLoop | PerWait => 1
  | PerCheck | PerIndex => 2
  end.

(** The monitor has passed the test of line 158: it sleeps its backoff
    or is about to call [_start_watch_mode]. *)
Definition in_backoff (pc : monitor_pc) : bool :=
  match pc with
  | MonBackoff | MonRestart => true
  | _ => false
  end.

(** The fields of the indexer fit together: the count of index runs is
    not negative, the time of the last run is set once the count is not
    0 (the time is assigned first, line 204, the count after it, line
    205), and the two handles point at a process and at a thread that
    exist. *)
Definition consistent (s : system) : Prop :=
  (0 ≤ _index_count (ix s))%Z
  ∧ (_index_count (ix s) ≠ 0%Z → _last_index_time (ix s) ≠ None)
  ∧ (∀ pid, _watch_process (ix s) = Some pid → (pid < length (procs s))%nat)
  ∧ (∀ tid, _periodic_thread (ix s) = Some tid → (tid < length (threads s))%nat).

(** [s'] is [s] with more of the same: no process or thread is gone, the
    requests and the log of [s] stand at the front of those of [s'],
    and the count of index runs has not gone down. *)
Definition grown (s s' : system) : Prop :=
  (length (procs s) ≤ length (procs s'))%nat
  ∧ (length (threads s) ≤ length (threads s'))%nat
  ∧ events s `prefix_of` events s'
  ∧ logged s `prefix_of` logged s'
  ∧ (_index_count (ix s) ≤ _index_count (ix s'))%Z
  ∧ cass_binary (ix s') = cass_binary (ix s)
  ∧ data_dir (ix s') = data_dir (ix s).

(** A process that has exited in [s] is the same record in [s']. *)
Definition exits_kept (s s' : system) : Prop :=
  ∀ pid p code,
    procs s !! pid = Some p → poll p = Some code → procs s' !! pid = Some p.

(** From [s] to [s'] the indexer stays consistent, only grows, and
    keeps its exited processes. *)
Definition evolves (s s' : system) : Prop :=
  (consistent s → consistent s') ∧ grown s s' ∧ exits_kept s s'.

(** ** The HTTP endpoint that triggers an index run *)

(** What the handler reads of a request: its method, and what
    [await request.json()] gives. *)
Record Request : Type := MkRequest {
  method : string;
  request_json : res value
}.

Record JSONResponse : Type := MkJSONResponse {
  status_code : Z;
  content : value
}.

(** The module's global [background_indexer] ([None], or the indexer of
    [world]) and the indexer's world. *)
Record app : Type := MkApp {
  background_indexer : bool;
  world : system
}.

(** [body.get("full", False)], line 701; only a dict has [get]. *)
Definition body_get_full (body : value) : res value :=
  match body with
  | VDict d => Ret (dict_get_default d "full" (VBool false))
  | _ => Exc (Exn OtherException
                ("'" +:+ type_name body +:+ "' object has no attribute 'get'"))
  end.

(** Lines 696-703: [full] after the [try] with its bare [except]. *)
Definition requested_full (request : Request) : value :=
  if decide (method request = "POST") then
    match body ← request_json request; body_get_full body with
    | Ret full => full
    | Exc _ => VBool false
    end
  else VBool false.

(** The handler [trigger_index(request)], lines 690-709. The method
    [BackgroundIndexer.trigger_index] hands [full] on as it is and
    [_run_index] tests it with [if full]. *)
Definition trigger_index_endpoint (request : Request) (a : app) : JSONResponse * app :=
  if background_indexer a then
    let full := requested_full request in
    (MkJSONResponse 200
       (py_dict [ ("status", VStr "indexing");
                  ("full", full);
                  ("message", VStr "Index operation triggered") ]),
     MkApp true (trigger_index (truthy full) (world a)))
  else
    (MkJSONResponse 503
       (py_dict [ ("error", VStr "Background indexer not initialized") ]),
     a).

(** A value of the type the schema of [list_tools] gives a required
    parameter: [line] is an integer, the others are strings. *)
Definition required_typed (k : string) (v : value) : bool :=
  if decide (k = "line") then match v with VInt _ => true | _ => false end
  else is_str v.


(** ** More inputs for concrete runs *)

Definition search_20 : gmap string value :=
  <["query" := VStr "auth error"]> (<["limit" := VInt 20]> ∅).

Definition context_500 : gmap string value :=
  <["path" := VStr "s.jsonl"]> (<["limit" := VInt 500]> ∅).

Definition only_path : gmap string value :=
  <["path" := VStr "s.jsonl"]> ∅.

Definition line_0 : gmap string value :=
  <["line" := VInt 0]> only_path.

Definition line_12 : gmap string value :=
  <["line" := VInt 12]> only_path.

Definition query_5 : gmap string value :=
  <["query" := VInt 5]> ∅.

(** An indexer in periodic mode, its thread (0) at [pc], with the stop
    flag as given. *)
Definition periodic_at (pc : periodic_pc) (stop_event : bool) : system :=
  MkSystem (MkIndexer "/app/cass" "/data" None (Some 0) stop_event None 0
              (negb stop_event))
    [] [PeriodicIndexer pc] [] [].

(** An indexer in watch mode after [stop()]: the child (pid 0) was
    terminated, the monitor (thread 0) is at [pc]. *)
Definition watch_stopped_at (pc : monitor_pc) : system :=
  MkSystem (MkIndexer "/app/cass" "/data" (Some 0) None true None 0 false)
    [Process (Exited (-15)) ""]
    [WatchMonitor pc]
    [Popen ["/app/cass"; "index"; "--watch"] "/data" 0; Terminate 0; Wait 0 5]
    [].

(** [Popen] raises. *)
Definition reply_popen_failed : os_reply :=
  Reply (Ret (Completed 0 "" "")) 1000
    (Some (Exn OtherException "[Errno 2] No such file or directory: '/app/cass'"))
    true None.

(** A [cass_search] call whose [limit] has 4301 digits. *)
Definition huge_limit : gmap string value :=
  <["query" := VStr "auth error"]> (<["limit" := VInt (10 ^ 4300)]> ∅).

(** The stderr of the child holds the byte 0xff, which does not decode. *)
Definition reply_undecodable : os_reply :=
  Reply (Ret (Completed 0 "" "")) 1000 None true
    (Some (Exn OtherException
             "'utf-8' codec can't decode byte 0xff in position 0: invalid start byte")).

(** A child that has not exited 5 seconds after SIGTERM. *)
Definition reply_sigterm_ignored : os_reply :=
  Reply (Ret (Completed 0 "" "")) 1000 None false None.

(** Watch mode is started, the child exits with code 1 and leaves the
    byte 0xff on its stderr, and the monitor polls it. *)
Definition exit_with_undecodable_stderr : list (label * os_reply) :=
  [ (CallStart true false, reply_ok);
    (ChildExit 0 1 "", reply_ok);
    (ThreadStep 0, reply_undecodable);   (* line 147 *)
    (ThreadStep 0, reply_undecodable);   (* line 150 *)
    (ThreadStep 0, reply_undecodable) ]. (* lines 152-155: read() raises *)

(** An indexer in watch mode: the child (pid 0) runs, the monitor
    (thread 0) sleeps between two polls. *)
Definition watch_child_running : system :=
  MkSystem (MkIndexer "/app/cass" "/data" (Some 0) None false None 0 true)
    [Process Running ""]
    [WatchMonitor MonSleep]
    [Popen ["/app/cass"; "index"; "--watch"] "/data" 0]
    [].


(** ** Tactics *)

(** Splits on what a call gives for [key]: nothing, or a value. *)
Ltac case_key arguments key :=
  let v := fresh "v" in
  let Hk := fresh "Hk" in
  destruct (arguments !! key) as [v|] eqn:Hk; simpl;
  [destruct (truthy v) eqn:?|].

(** Splits on whether the [str] that stands in the goal returns. *)
Ltac case_str :=
  match goal with
  | |- context [py_str ?v] =>
      let s := fresh "s" in
      let Hs := fresh "Hs" in
      destruct (py_str v) as [s|?] eqn:Hs; simpl
  end.

(** Membership, or not, of a given string in a given list. *)
Ltac elem_closed := rewrite ?elem_of_cons, ?elem_of_nil; intuition congruence.

(** Finds the pair in a list that is written out. *)
Ltac find_pair := simpl; repeat first [ by left | right ].

(** Refutes [adjacent "--limit" (str n)] on a list that is written out:
    a pair either starts with another flag, or ends with a flag or
    with [100]. *)
Ltac refute_pairs Hadj Hflag H100 :=
  repeat match type of Hadj with
  | _ ∨ _ =>
      let Hx := fresh "Hx" in
      let Hy := fresh "Hy" in
      destruct Hadj as [[Hx Hy]|Hadj];
      [ try discriminate Hx; injection Hy as Hy; symmetry in Hy;
        first [ by apply Hflag in Hy | by apply H100 in Hy ] | ]
  end;
  exact Hadj.

(** ** The process runner *)

Lemma py_join_from_strs i sep items :
  forallb is_str items = true → ∃ t, py_join_from i sep items = Ret t.
Proof.
  revert i. induction items as [|v rest IH]; intros i Hstr; simpl.
  - by eexists.
  - simpl in Hstr. apply andb_true_iff in Hstr as [Hv Hrest].
    destruct v; try discriminate.
    destruct (IH (S i) Hrest) as [t ->]. by eexists.
Qed.

Lemma py_join_from_non_str i sep items :
  forallb is_str items = false →
  ∃ msg, py_join_from i sep items = Exc (Exn TypeError msg).
Proof.
  revert i. induction items as [|v rest IH]; intros i Hstr; simpl in *.
  - discriminate.
  - destruct v; try by eexists.
    destruct (IH (S i) Hstr) as [msg ->]. by eexists.
Qed.

Lemma str_args_are_str args : forallb is_str (str_args args) = true.
Proof. induction args as [|a args IH]; [done|]. exact IH. Qed.

(** With [str] arguments [run_cass] spawns one child and returns. *)
Lemma run_cass_unfold args timeout w :
  forallb is_str args = true →
  run_cass args timeout w =
    (Ret match os_run w (Invocation (VStr CASS_BINARY :: args) timeout DATA_DIR) with
         | Ret result =>
             if negb (returncode result =? 0)%Z then
               py_dict [ ("error", VBool true);
                         ("exit_code", VInt (returncode result));
                         ("stderr", VStr (strip (stderr result)));
                         ("stdout", VStr (strip (stdout result))) ]
             else
               match json_loads (stdout result) with
               | Ret v => v
               | Exc e =>
                   if is_json_decode_error e
                   then py_dict [ ("output", VStr (strip (stdout result))) ]
                   else handled timeout e
               end
         | Exc e => handled timeout e
         end,
     (w ++ [Invocation (VStr CASS_BINARY :: args) timeout DATA_DIR])%list).
Proof.
  intros Hstr. unfold run_cass, py_join.
  destruct (py_join_from_strs 0 " " (VStr CASS_BINARY :: args)) as [t Ht]; [done|].
  unfold mbind, M_bind, lift, try_except, subprocess_run, handled. rewrite Ht.
  destruct (os_run w _) as [[rc out err]|e]; simpl.
  - destruct (rc =? 0)%Z; simpl; [|done].
    destruct (json_loads out) as [v|e]; simpl; [done|].
    unfold raise. destruct (is_json_decode_error e); simpl; [done|].
    by destruct (is_timeout e).
  - by destruct (is_timeout e).
Qed.

(** A non-[str] argument makes the log line's [join] raise before the
    [try] is entered, and no child is spawned. *)
Lemma run_cass_non_str args timeout w :
  forallb is_str args = false →
  ∃ msg, run_cass args timeout w = (Exc (Exn TypeError msg), w).
Proof.
  intros Hstr. unfold run_cass, py_join.
  destruct (py_join_from_non_str 0 " " (VStr CASS_BINARY :: args)) as [msg Hmsg]; [done|].
  exists msg. unfold mbind, M_bind, lift. by rewrite Hmsg.
Qed.

(** C1: for every list of strings as arguments and every timeout [run_cass]
    returns a value and raises nothing, whatever [subprocess.run] and
    [json.loads] do; a timeout gives the error dict with the timeout
    message, any other exception of [subprocess.run] the error dict with
    the exception's message. *)
Theorem run_cass_never_raises (args : list string) timeout w :
  ∃ v,
    run_cass (str_args args) timeout w
      = (Ret v, (w ++ [Invocation (VStr CASS_BINARY :: str_args args) timeout DATA_DIR])%list)
    ∧ ∀ e, os_run w (Invocation (VStr CASS_BINARY :: str_args args) timeout DATA_DIR) = Exc e →
        v = if is_timeout e
            then py_dict [ ("error", VBool true);
                           ("message", VStr ("Command timed out after "
                                             +:+ int_str timeout +:+ "s")) ]
            else py_dict [ ("error", VBool true); ("message", VStr (exn_str e)) ].
Proof.
  rewrite run_cass_unfold by apply str_args_are_str.
  eexists; split; [reflexivity|].
  intros e ->. reflexivity.
Qed.

(** C3: a child that exits with a code other than zero gives the error
    dict with that code, the stripped stderr and the stripped stdout. *)
Theorem run_cass_nonzero_exit (args : list string) timeout w rc out err :
  os_run w (Invocation (VStr CASS_BINARY :: str_args args) timeout DATA_DIR)
    = Ret (Completed rc out err) →
  rc ≠ 0%Z →
  (run_cass (str_args args) timeout w).1
    = Ret (py_dict [ ("error", VBool true);
                     ("exit_code", VInt rc);
                     ("stderr", VStr (strip err));
                     ("stdout", VStr (strip out)) ]).
Proof.
  intros Hrun Hrc. rewrite run_cass_unfold by apply str_args_are_str. rewrite Hrun. simpl.
  by destruct (Z.eqb_spec rc 0).
Qed.


(** C6, as the code has it: an error dict of [run_cass] has one of two
    shapes. After a non-zero exit its keys are [error], [exit_code],
    [stderr] and [stdout]; after a timeout or any other exception, of
    [subprocess.run] or of the decoder, they are [error] and [message]
    only. *)
Theorem run_cass_failure_shapes (args : list string) timeout w :
  (∀ rc out err,
     os_run w (Invocation (VStr CASS_BINARY :: str_args args) timeout DATA_DIR)
       = Ret (Completed rc out err) →
     rc ≠ 0%Z →
     ∃ d, (run_cass (str_args args) timeout w).1 = Ret (VDict d)
          ∧ dom d = {[ "error"; "exit_code"; "stderr"; "stdout" ]}
          ∧ d !! "error" = Some (VBool true)
          ∧ d !! "exit_code" = Some (VInt rc)
          ∧ d !! "stderr" = Some (VStr (strip err))
          ∧ d !! "stdout" = Some (VStr (strip out)))
  ∧ (∀ e,
     os_run w (Invocation (VStr CASS_BINARY :: str_args args) timeout DATA_DIR) = Exc e →
     ∃ d, (run_cass (str_args args) timeout w).1 = Ret (VDict d)
          ∧ dom d = {[ "error"; "message" ]}
          ∧ d !! "error" = Some (VBool true)
          ∧ d !! "message"
            = Some (VStr (if is_timeout e
                          then "Command timed out after " +:+ int_str timeout +:+ "s"
                          else exn_str e)))
  ∧ (∀ out err e,
     os_run w (Invocation (VStr CASS_BINARY :: str_args args) timeout DATA_DIR)
       = Ret (Completed 0 out err) →
     json_loads out = Exc e →
     is_json_decode_error e = false →
     ∃ d msg, (run_cass (str_args args) timeout w).1 = Ret (VDict d)
          ∧ dom d = {[ "error"; "message" ]}
          ∧ d !! "error" = Some (VBool true)
          ∧ d !! "message" = Some (VStr msg)).
Proof.
  rewrite run_cass_unfold by apply str_args_are_str.
  assert (Hhandled : ∀ e, ∃ d,
            handled timeout e = VDict d
            ∧ dom d = {[ "error"; "message" ]}
            ∧ d !! "error" = Some (VBool true)
            ∧ d !! "message"
              = Some (VStr (if is_timeout e
                            then "Command timed out after " +:+ int_str timeout +:+ "s"
                            else exn_str e))).
  { intros e. unfold handled, py_dict.
    destruct (is_timeout e); eexists;
      (split; [reflexivity|]); (split; [|done]);
      rewrite !list_to_map_cons, list_to_map_nil, !dom_insert_L, dom_empty_L;
      set_solver. }
  split; [|split].
  - intros rc out err -> Hrc. cbn [returncode stderr stdout].
    destruct (Z.eqb_spec rc 0); [done|]. cbn [negb fst].
    eexists. split; [reflexivity|]. split; [|done].
    rewrite !list_to_map_cons, list_to_map_nil, !dom_insert_L, dom_empty_L.
    set_solver.
  - intros e ->. cbn [fst].
    destruct (Hhandled e) as (d & -> & Hd). by exists d.
  - intros out err e -> Hloads Hcls. cbn [returncode stdout negb Z.eqb fst].
    rewrite Hloads, Hcls.
    destruct (Hhandled e) as (d & -> & Hdom & Herr & Hmsg). by eexists d, _.
Qed.

(** ** What [str] and [repr] can print *)

Lemma int_printable_small z : (Z.abs z < 1000)%Z → int_printable z = true.
Proof.
  intros Hz. unfold int_printable. apply Z.ltb_lt.
  eapply Z.lt_le_trans; [exact Hz|].
  change 1000%Z with (10 ^ 3)%Z. apply Z.pow_le_mono_r; lia.
Qed.

(** A timeout that [subprocess.run] could add to its clock prints. *)
Lemma float_convertible_printable z :
  float_convertible z = true → int_printable z = true.
Proof.
  unfold float_convertible, int_printable. rewrite !Z.ltb_lt. intros Hz.
  eapply Z.lt_le_trans; [exact Hz|].
  transitivity (2 ^ 4300)%Z.
  - apply Z.pow_le_mono_r; lia.
  - apply Z.pow_le_mono_l. lia.
Qed.

(** What is no container prints at any depth. *)
Lemma repr_ok_none n : repr_ok n VNone = true.
Proof. by destruct n. Qed.

Lemma repr_ok_bool n b : repr_ok n (VBool b) = true.
Proof. by destruct n. Qed.

Lemma repr_ok_str n s : repr_ok n (VStr s) = true.
Proof. by destruct n. Qed.

Lemma repr_ok_int n z : repr_ok n (VInt z) = int_printable z.
Proof. by destruct n. Qed.

(** What prints at some depth prints with more room. *)
Lemma repr_ok_mono n v : repr_ok n v = true → repr_ok (S n) v = true.
Proof.
  revert v. induction n as [|n IH]; intros v.
  - by destruct v.
  - destruct v as [| | | |l|d]; try done.
    + change (forallb (repr_ok n) l = true → forallb (repr_ok (S n)) l = true).
      rewrite !forallb_forall. auto.
    + change (bool_decide (map_Forall (λ _ x, repr_ok n x = true) d) = true →
              bool_decide (map_Forall (λ _ x, repr_ok (S n) x = true) d) = true).
      rewrite !bool_decide_eq_true. intros Hall i x Hi. apply IH, (Hall i x Hi).
Qed.

(** A dict that prints has values that print. *)
Lemma repr_ok_lookup a k v :
  repr_ok REPR_DEPTH (VDict a) = true → a !! k = Some v →
  repr_ok REPR_DEPTH v = true.
Proof.
  destruct REPR_DEPTH as [|n]; [done|]. cbn [repr_ok].
  rewrite bool_decide_eq_true. intros Hall Hk.
  apply repr_ok_mono. exact (Hall k v Hk).
Qed.

Lemma py_str_printable v :
  repr_ok REPR_DEPTH v = true → py_str v = Ret (str_text v).
Proof. unfold py_str. by intros ->. Qed.

Lemma py_str_lookup a k v :
  repr_ok REPR_DEPTH (VDict a) = true → a !! k = Some v →
  py_str v = Ret (str_text v).
Proof. intros Ha Hk. apply py_str_printable. by eapply repr_ok_lookup. Qed.

Lemma py_str_get a k :
  repr_ok REPR_DEPTH (VDict a) = true →
  py_str (dict_get a k) = Ret (str_text (dict_get a k)).
Proof.
  intros Ha. unfold dict_get. destruct (a !! k) as [v|] eqn:Hk.
  - by eapply py_str_lookup.
  - apply py_str_printable, repr_ok_none.
Qed.

Lemma py_str_int z : int_printable z = true → py_str (VInt z) = Ret (int_str z).
Proof. intros Hz. apply py_str_printable. by rewrite repr_ok_int. Qed.

Lemma py_str_100 : py_str (VInt 100) = Ret "100".
Proof. apply py_str_int, int_printable_small. done. Qed.

(** When [str] returns, it returns the text. *)
Lemma py_str_ret v s : py_str v = Ret s → s = str_text v.
Proof. unfold py_str. destruct (repr_ok REPR_DEPTH v); congruence. Qed.

(** A binding that prints does not decide whether the dict prints. *)
Lemma repr_ok_delete n a k v :
  a !! k = Some v → repr_ok n v = true →
  repr_ok (S n) (VDict (delete k a)) = repr_ok (S n) (VDict a).
Proof.
  intros Hk Hv. cbn [repr_ok]. apply bool_decide_ext. split.
  - intros Hall i x Hi. destruct (decide (i = k)) as [->|Hne].
    + by simplify_eq.
    + apply (Hall i). by rewrite lookup_delete_ne.
  - intros Hall. by apply map_Forall_delete.
Qed.

Lemma repr_ok_insert n a k v :
  repr_ok (S n) (VDict (<[k := v]> a)) = true →
  repr_ok n v = true ∧ repr_ok (S n) (VDict (delete k a)) = true.
Proof.
  cbn [repr_ok]. rewrite !bool_decide_eq_true. intros Hall. split.
  - apply (Hall k). by rewrite lookup_insert_eq.
  - intros i x Hi. apply lookup_delete_Some in Hi as [Hne Hi].
    apply (Hall i). by rewrite lookup_insert_ne.
Qed.

(** [call_tool] is its [try] statement once the log line has returned. *)
Lemma call_tool_printable name arguments w :
  repr_ok REPR_DEPTH (VDict arguments) = true →
  call_tool name arguments w = call_tool_try name arguments w.
Proof.
  intros Hok. unfold call_tool. rewrite (py_str_printable _ Hok). done.
Qed.

(** The log line raises for arguments it cannot print, and nothing of
    the [try] runs. *)
Lemma call_tool_unprintable name arguments w :
  repr_ok REPR_DEPTH (VDict arguments) = false →
  call_tool name arguments w = (Exc repr_error, w).
Proof. intros Hok. unfold call_tool, py_str. by rewrite Hok. Qed.

(** ** Tool dispatch *)

Lemma int_str_100 : int_str 100 = "100".
Proof. reflexivity. Qed.

(** The decimal text of a number that is not negative starts with no dash. *)
Lemma int_str_nonneg_no_dash (n : Z) s : (0 ≤ n)%Z → int_str n ≠ String "-" s.
Proof.
  intros Hn. destruct n as [|p|p]; [done| |lia].
  unfold int_str, pretty, pretty_Z, pretty, pretty_positive, pretty, pretty_N.
  rewrite decide_False by done.
  apply (pretty_N_go_ne_dash (N.pos p) "" s). done.
Qed.

Lemma int_str_above_100 (n : Z) : (100 < n)%Z → int_str n ≠ "100".
Proof.
  intros Hn Heq. rewrite <-int_str_100 in Heq.
  apply (inj pretty) in Heq. lia.
Qed.

(** [run_cass] spawns at most one child, with the arguments it was given. *)
Lemma run_cass_log args timeout w :
  (run_cass args timeout w).2
    = (w ++ if forallb is_str args
            then [Invocation (VStr CASS_BINARY :: args) timeout DATA_DIR]
            else [])%list.
Proof.
  destruct (forallb is_str args) eqn:Hstr.
  - by rewrite run_cass_unfold.
  - destruct (run_cass_non_str args timeout w Hstr) as [msg ->].
    simpl. by rewrite app_nil_r.
Qed.

(** Serialising the result spawns nothing. *)
Lemma call_tool_try_log name arguments w :
  (call_tool_try name arguments w).2 = (call_tool_result name arguments w).2.
Proof.
  unfold call_tool_try, try_except, mbind, M_bind, mret, M_ret.
  by destruct (call_tool_result name arguments w) as [[v|e] w'].
Qed.

(** The children of a call: those of the [try], when the log line lets
    the call get there. *)
Lemma call_tool_log name arguments w :
  (call_tool name arguments w).2
    = if repr_ok REPR_DEPTH (VDict arguments)
      then (call_tool_result name arguments w).2 else w.
Proof.
  destruct (repr_ok REPR_DEPTH (VDict arguments)) eqn:Hok.
  - by rewrite call_tool_printable, call_tool_try_log.
  - by rewrite call_tool_unprintable.
Qed.

Lemma call_tool_result_search arguments w :
  call_tool_result "cass_search" arguments w
    = match search_args arguments with
      | Ret args => run_cass args 30 w
      | Exc e => (Exc e, w)
      end.
Proof.
  unfold call_tool_result. rewrite decide_True by done.
  unfold mbind, M_bind, lift. by destruct (search_args arguments).
Qed.

(** Once the log line of line 553 has returned, that is for arguments
    that print, [call_tool] returns one text payload and raises nothing.
    A name that is none of the ten tools gives the serialised error dict
    with the message [Unknown tool: name] and spawns no child; an
    exception raised inside the [try] gives the serialised error dict
    with the exception's message. *)
Theorem call_tool_never_raises name arguments w :
  repr_ok REPR_DEPTH (VDict arguments) = true →
  (∃ payload w',
     call_tool name arguments w = (Ret [MkTextContent "text" payload], w'))
  ∧ (name ∉ tool_names →
     call_tool name arguments w
       = (Ret [MkTextContent "text"
                 (json_dumps (Some 2)
                    (py_dict [ ("error", VBool true);
                               ("message", VStr ("Unknown tool: " +:+ name)) ]))],
          w))
  ∧ (∀ e w',
     call_tool_result name arguments w = (Exc e, w') →
     call_tool name arguments w
       = (Ret [MkTextContent "text"
                 (json_dumps None
                    (py_dict [ ("error", VBool true);
                               ("message", VStr (exn_str e)) ]))],
          w')).
Proof.
  intros Hok. rewrite (call_tool_printable _ _ _ Hok). split; [|split].
  - unfold call_tool_try, try_except, mbind, M_bind, mret, M_ret.
    destruct (call_tool_result name arguments w) as [[v|e] w']; by do 2 eexists.
  - intros Hname. unfold call_tool_try, try_except, call_tool_result.
    unfold tool_names in Hname.
    repeat (rewrite decide_False; [|intros ->; apply Hname; set_solver]).
    reflexivity.
  - intros e w' Hexc. unfold call_tool_try, try_except, mbind, M_bind.
    by rewrite Hexc.
Qed.

Lemma search_args_limit_clamped arguments n args :
  arguments !! "limit" = Some (VInt n) → (100 < n)%Z →
  search_args arguments = Ret args →
  adjacent (VStr "--limit") (VStr "100") args
  ∧ ¬ adjacent (VStr "--limit") (VStr (int_str n)) args.
Proof.
  intros Hlimit Hn.
  assert (Hflag : ∀ s, int_str n ≠ String "-" s)
    by (intros s; apply int_str_nonneg_no_dash; lia).
  assert (H100 : int_str n ≠ "100") by by apply int_str_above_100.
  unfold search_args, extend_value, extend_str, append_flag, getitem, dict_get.
  rewrite Hlimit. simpl.
  replace (n =? 0)%Z with false by lia. replace (100 <? n)%Z with true by lia.
  simpl. rewrite py_str_100. simpl.
  destruct (arguments !! "query") as [q|]; [|done].
  case_key arguments "agent"; case_key arguments "workspace";
    case_key arguments "days"; try case_str; try done;
    destruct (truthy (default VNone (arguments !! "today")));
    destruct (truthy (default VNone (arguments !! "highlight")));
    simpl; intros [= <-]; (split; [find_pair|]);
    intros Hadj; simpl in Hadj; refute_pairs Hadj Hflag H100.
Qed.

(** A typed [cass_search] call with an int limit, whose arguments
    print, builds its argument list, and the list holds strings only. *)
Lemma search_args_typed arguments n :
  search_call_typed arguments = true →
  arguments !! "limit" = Some (VInt n) →
  repr_ok REPR_DEPTH (VDict arguments) = true →
  ∃ args, search_args arguments = Ret args ∧ forallb is_str args = true.
Proof.
  intros Htyped Hlimit Hok. revert Htyped.
  assert (Hclamp : py_str (if (100 <? n)%Z then VInt 100 else VInt n)
                   = Ret (str_text (if (100 <? n)%Z then VInt 100 else VInt n))).
  { destruct (100 <? n)%Z; [apply py_str_100|].
    by apply (py_str_lookup arguments "limit"). }
  unfold search_call_typed, str_or_falsy.
  unfold search_args, extend_value, extend_str, append_flag, getitem, dict_get.
  rewrite Hlimit. simpl.
  destruct (arguments !! "query") as [[]|]; try done.
  case_key arguments "agent"; case_key arguments "workspace";
    case_key arguments "days";
    rewrite ?(py_str_lookup arguments "days" _ Hok) by eassumption;
    destruct (truthy (default VNone (arguments !! "today")));
    destruct (truthy (default VNone (arguments !! "highlight")));
    destruct (n =? 0)%Z; simpl; rewrite ?Hclamp; simpl;
    rewrite ?(py_str_lookup arguments "days" _ Hok) by eassumption; simpl;
    rewrite ?orb_true_r, ?orb_false_r, ?andb_true_r; simpl; intros Htyped;
    repeat match goal with
    | H : is_str ?v && _ = true |- _ => apply andb_true_iff in H as [? ?]
    | H : is_str ?v = true |- _ => destruct v; try discriminate H; clear H
    end;
    try discriminate; by eexists.
Qed.

(** C5: a [cass_search] call whose [limit] is an int above 100 forwards
    [--limit 100] and nowhere [--limit] followed by the limit it was
    given. With a string [query] (and string [agent] and [workspace],
    where given) and arguments that print, exactly one child is spawned;
    with arguments that do not print (a limit of more than 4300 digits
    is one) the log line raises and none is. *)
Theorem search_limit_clamped arguments n w :
  arguments !! "limit" = Some (VInt n) → (100 < n)%Z →
  ∃ spawned,
    (call_tool "cass_search" arguments w).2 = (w ++ spawned)%list
    ∧ (∀ i, i ∈ spawned →
         adjacent (VStr "--limit") (VStr "100") (inv_args i)
         ∧ ¬ adjacent (VStr "--limit") (VStr (int_str n)) (inv_args i))
    ∧ (search_call_typed arguments = true →
       repr_ok REPR_DEPTH (VDict arguments) = true → length spawned = 1)
    ∧ (repr_ok REPR_DEPTH (VDict arguments) = false → spawned = []).
Proof.
  intros Hlimit Hn. rewrite call_tool_log.
  destruct (repr_ok REPR_DEPTH (VDict arguments)) eqn:Hok; cycle 1.
  { exists []. rewrite app_nil_r. split_and!; try done.
    intros i Hi. by apply elem_of_nil in Hi. }
  rewrite call_tool_result_search.
  destruct (search_args arguments) as [args|e] eqn:Hargs.
  - rewrite run_cass_log. eexists. split; [reflexivity|]. split_and!; [| |done].
    + intros i Hi. destruct (forallb is_str args); [|by apply elem_of_nil in Hi].
      apply list_elem_of_singleton in Hi as ->.
      by apply (search_args_limit_clamped arguments).
    + intros Htyped _.
      destruct (search_args_typed arguments n Htyped Hlimit Hok)
        as (args' & Heq & Hstr).
      rewrite Hargs in Heq. injection Heq as <-. by rewrite Hstr.
  - exists []. simpl. split; [by rewrite app_nil_r|]. split_and!; [| |done].
    + intros i Hi. by apply elem_of_nil in Hi.
    + intros Htyped _.
      destruct (search_args_typed arguments n Htyped Hlimit Hok) as (args' & Heq & _).
      congruence.
Qed.

Lemma search_args_limit_zero arguments :
  arguments !! "limit" = Some (VInt 0) →
  search_args arguments = search_args (delete "limit" arguments).
Proof.
  intros Hlimit.
  unfold search_args, extend_value, extend_str, append_flag, getitem, dict_get.
  rewrite !lookup_delete, Hlimit. reflexivity.
Qed.

Lemma search_args_without_limit arguments args :
  truthy (dict_get arguments "limit") = false →
  ¬ supplies arguments "--limit" →
  search_args arguments = Ret args →
  VStr "--limit" ∉ args.
Proof.
  unfold supplies, search_args, extend_value, extend_str, append_flag, getitem, dict_get.
  intros -> Hsup. simpl.
  destruct (arguments !! "query") as [q|]; [|done].
  case_key arguments "agent"; case_key arguments "workspace";
    case_key arguments "days"; try case_str; try done;
    try match goal with H : py_str _ = Ret _ |- _ => apply py_str_ret in H as -> end;
    destruct (truthy (default VNone (arguments !! "today")));
    destruct (truthy (default VNone (arguments !! "highlight")));
    simpl in *; intros [= <-]; intros Hin;
    repeat (apply elem_of_cons in Hin as [Hin|Hin];
            [first [discriminate Hin | exfalso; apply Hsup; intuition congruence]|]);
    by apply elem_of_nil in Hin.
Qed.

(** C10: a [cass_search] call whose [limit] is 0 runs exactly as the
    call without [limit] does, and unless the caller passes the text
    [--limit] as one of the values, the command line holds no [--limit]. *)
Theorem search_limit_zero arguments w :
  arguments !! "limit" = Some (VInt 0) →
  call_tool "cass_search" arguments w
    = call_tool "cass_search" (delete "limit" arguments) w
  ∧ ∃ spawned,
      (call_tool "cass_search" arguments w).2 = (w ++ spawned)%list
      ∧ (¬ supplies arguments "--limit" →
         ∀ i, i ∈ spawned → VStr "--limit" ∉ inv_args i).
Proof.
  intros Hlimit. split.
  - assert (Hsame : repr_ok REPR_DEPTH (VDict (delete "limit" arguments))
                    = repr_ok REPR_DEPTH (VDict arguments)).
    { destruct REPR_DEPTH as [|n]; [done|].
      apply (repr_ok_delete n arguments "limit" (VInt 0) Hlimit).
      rewrite repr_ok_int. by apply int_printable_small. }
    destruct (repr_ok REPR_DEPTH (VDict arguments)) eqn:Hok.
    + rewrite (call_tool_printable _ arguments) by done.
      rewrite (call_tool_printable _ (delete "limit" arguments)) by done.
      unfold call_tool_try, try_except, mbind, M_bind.
      by rewrite !call_tool_result_search, (search_args_limit_zero arguments).
    + rewrite (call_tool_unprintable _ arguments) by done.
      by rewrite (call_tool_unprintable _ (delete "limit" arguments)).
  - rewrite call_tool_log.
    destruct (repr_ok REPR_DEPTH (VDict arguments)); cycle 1.
    { exists []. split; [by rewrite app_nil_r|].
      intros _ i Hi. by apply elem_of_nil in Hi. }
    rewrite call_tool_result_search.
    destruct (search_args arguments) as [args|e] eqn:Hargs.
    + rewrite run_cass_log. eexists. split; [reflexivity|].
      intros Hsup i Hi. destruct (forallb is_str args); [|by apply elem_of_nil in Hi].
      apply list_elem_of_singleton in Hi as ->.
      apply (search_args_without_limit arguments); [|done..].
      unfold dict_get. by rewrite Hlimit.
    + exists []. simpl. split; [by rewrite app_nil_r|].
      intros _ i Hi. by apply elem_of_nil in Hi.
Qed.

(** ** The background indexer *)

(** C9, as the code has it: [last_index_time] is the time at which the
    last index command ran to its end, whatever its exit code, and such
    a run counts in [index_count]; a pass that times out or cannot be
    run leaves both as they were. *)
Theorem run_index_last_index_time full r s :
  last_index_time (get_status (_run_index full r s))
    = match reply_index r with
      | Ret _ => Some (reply_now r)
      | Exc _ => last_index_time (get_status s)
      end
  ∧ index_count (get_status (_run_index full r s))
    = match reply_index r with
      | Ret _ => (index_count (get_status s) + 1)%Z
      | Exc _ => index_count (get_status s)
      end.
Proof.
  unfold _run_index, get_status.
  destruct (reply_index r) as [[rc out err]|e]; simpl.
  - by destruct (rc =? 0)%Z.
  - by destruct (is_timeout e).
Qed.

Lemma start_is_running u i r s : _is_running (ix (start u i r s)) = true.
Proof.
  unfold start. destruct (_is_running (ix s)) eqn:Hrun; [done|].
  destruct i, u; unfold _run_index, _start_watch_mode, _start_periodic_indexing;
    simpl; by repeat case_match.
Qed.

(** A second [start()] without a [stop()] in between spawns no child and
    no thread and changes no field: it only logs a warning. *)
Lemma start_twice u i r u' i' r' s :
  ix (start u' i' r' (start u i r s)) = ix (start u i r s)
  ∧ procs (start u' i' r' (start u i r s)) = procs (start u i r s)
  ∧ threads (start u' i' r' (start u i r s)) = threads (start u i r s)
  ∧ events (start u' i' r' (start u i r s)) = events (start u i r s)
  ∧ get_status (start u' i' r' (start u i r s)) = get_status (start u i r s).
Proof.
  assert (start u' i' r' (start u i r s)
          = log WARNING "Background indexer already running" (start u i r s)) as ->.
  { unfold start at 1. by rewrite start_is_running. }
  done.
Qed.

(** What [stop()] does when no other thread runs. *)
Lemma stop_ix r s :
  ix (stop r s) = set_is_running false (set_stop_event true (ix s)).
Proof.
  unfold stop. simpl. destruct (_watch_process (ix s)) as [pid|]; [|done].
  unfold proc_alive. simpl. destruct (procs s !! pid) as [p|]; [|done].
  destruct (poll p); [done|]. by destruct (reply_grace r).
Qed.

Lemma stop_flags r s :
  _stop_event (ix (stop r s)) = true ∧ _is_running (ix (stop r s)) = false.
Proof. by rewrite stop_ix. Qed.

Lemma stop_threads r s : threads (stop r s) = threads s.
Proof.
  unfold stop. simpl. destruct (_watch_process (ix s)) as [pid|]; [|done].
  unfold proc_alive. simpl. destruct (procs s !! pid) as [p|]; [|done].
  destruct (poll p); [done|]. by destruct (reply_grace r).
Qed.

(** The signals of [stop()]: SIGTERM to a live watch child, and SIGKILL
    after the 5 seconds of [wait] when the child has not exited. *)
Lemma stop_events r s :
  events (stop r s)
    = (events s
       ++ match _watch_process (ix s) with
          | Some pid =>
              if proc_alive s pid
              then [Terminate pid; Wait pid 5]
                   ++ (if reply_grace r then [] else [Kill pid])
              else []
          | None => []
          end)%list.
Proof.
  unfold stop. simpl. destruct (_watch_process (ix s)) as [pid|]; simpl;
    [|by rewrite app_nil_r].
  unfold proc_alive. simpl. destruct (procs s !! pid) as [p|]; simpl;
    [|by rewrite app_nil_r].
  destruct (poll p); simpl; [by rewrite app_nil_r|].
  destruct (reply_grace r); simpl; by rewrite <-?app_assoc.
Qed.

(** A watch child that obeys SIGTERM, or had exited before, is not
    alive when [stop()] returns. *)
Lemma stop_watch_child_dead r s pid :
  _watch_process (ix s) = Some pid →
  (proc_alive s pid = true → reply_grace r = true) →
  _watch_process (ix (stop r s)) = Some pid ∧ proc_alive (stop r s) pid = false.
Proof.
  intros Hwatch Hobeys. rewrite stop_ix. split; [done|]. revert Hobeys.
  unfold stop, proc_alive. simpl. rewrite Hwatch.
  destruct (procs s !! pid) as [p|] eqn:Hp; simpl.
  - destruct (poll p) as [code|] eqn:Hpoll; simpl.
    + by rewrite Hp, Hpoll.
    + intros ->; [|done]. simpl. by rewrite list_lookup_alter, decide_True, Hp.
  - by rewrite Hp.
Qed.

(** A watch child that does not obey SIGTERM is sent SIGKILL, and is
    still alive when [stop()] returns: lines 236-239 do not wait for it. *)
Lemma stop_kill_child_alive r s pid :
  _watch_process (ix s) = Some pid →
  proc_alive s pid = true →
  reply_grace r = false →
  _watch_process (ix (stop r s)) = Some pid
  ∧ proc_alive (stop r s) pid = true
  ∧ procs (stop r s) = procs s.
Proof.
  intros Hwatch Halive Hgrace. rewrite stop_ix. split; [done|]. revert Halive.
  unfold stop, proc_alive. simpl. rewrite Hwatch, Hgrace.
  destruct (procs s !! pid) as [p|] eqn:Hp; simpl; [|done].
  destruct (poll p) as [code|] eqn:Hpoll; simpl; [done|].
  by rewrite Hp, Hpoll.
Qed.

(** The status after [stop()], with no other thread and no exit of a
    child in between. It is never running. When a live watch child obeys
    SIGTERM within the 5 seconds (or there is no live watch child) the
    mode is not [watch] and no pid is reported. When it does not,
    [stop()] has sent SIGKILL and returned without waiting: the status
    still reports [watch] and the child's pid. *)
Lemma stop_status r s :
  is_running (get_status (stop r s)) = false
  ∧ ((∀ pid, _watch_process (ix s) = Some pid → proc_alive s pid = true →
        reply_grace r = true) →
     mode (get_status (stop r s)) ≠ "watch"
     ∧ watch_pid (get_status (stop r s)) = None)
  ∧ (∀ pid, _watch_process (ix s) = Some pid → proc_alive s pid = true →
     reply_grace r = false →
     mode (get_status (stop r s)) = "watch"
     ∧ watch_pid (get_status (stop r s)) = Some pid
     ∧ events (stop r s) = (events s ++ [Terminate pid; Wait pid 5; Kill pid])%list).
Proof.
  split_and!.
  - unfold get_status. by destruct (stop_flags r s) as [_ ->].
  - intros Hobeys. unfold get_status.
    destruct (_watch_process (ix s)) as [pid|] eqn:Hwatch.
    + destruct (stop_watch_child_dead r s pid Hwatch (Hobeys pid eq_refl)) as [-> ->].
      simpl. split; [|done]. by repeat case_match.
    + assert (_watch_process (ix (stop r s)) = None) as ->
        by by rewrite stop_ix.
      simpl. split; [|done]. by repeat case_match.
  - intros pid Hwatch Halive Hgrace.
    destruct (stop_kill_child_alive r s pid Hwatch Halive Hgrace) as (Hw & Ha & _).
    unfold get_status. rewrite Hw, Ha. cbn [mode watch_pid].
    split; [done|]. split; [done|].
    by rewrite stop_events, Hwatch, Halive, Hgrace.
Qed.

(** A second [stop()] right after the first changes no field and no
    thread. When a live watch child obeyed the first SIGTERM (or there
    was no live watch child) it sends no signal either; when the child
    was sent SIGKILL and its exit has not been seen, the second [stop()]
    signals it again. *)
Lemma stop_twice r r' s :
  ix (stop r' (stop r s)) = ix (stop r s)
  ∧ threads (stop r' (stop r s)) = threads (stop r s)
  ∧ ((∀ pid, _watch_process (ix s) = Some pid → proc_alive s pid = true →
        reply_grace r = true) →
     procs (stop r' (stop r s)) = procs (stop r s)
     ∧ events (stop r' (stop r s)) = events (stop r s))
  ∧ (∀ pid, _watch_process (ix s) = Some pid → proc_alive s pid = true →
     reply_grace r = false →
     events (stop r' (stop r s))
     = (events (stop r s) ++ [Terminate pid; Wait pid 5]
        ++ if reply_grace r' then [] else [Kill pid])%list).
Proof.
  split_and!.
  - rewrite !stop_ix. by destruct (ix s).
  - by rewrite !stop_threads.
  - intros Hobeys.
    destruct (_watch_process (ix s)) as [pid|] eqn:Hwatch.
    + destruct (stop_watch_child_dead r s pid Hwatch (Hobeys pid eq_refl))
        as [Hw Hdead].
      split; [|by rewrite (stop_events r'), Hw, Hdead, app_nil_r].
      revert Hw Hdead. generalize (stop r s). intros s1 Hw Hdead.
      unfold stop. simpl. rewrite Hw.
      change (proc_alive _ pid) with (proc_alive s1 pid). by rewrite Hdead.
    + assert (_watch_process (ix (stop r s)) = None) as Hw by by rewrite stop_ix.
      split; [|by rewrite (stop_events r'), Hw, app_nil_r].
      revert Hw. generalize (stop r s). intros s1 Hw.
      unfold stop. simpl. by rewrite Hw.
  - intros pid Hwatch Halive Hgrace.
    destruct (stop_kill_child_alive r s pid Hwatch Halive Hgrace) as (Hw & Ha & _).
    by rewrite (stop_events r'), Hw, Ha.
Qed.

(** When the watch child has exited, the stop flag is not set, the
    monitor is in its polling loop and the child's stderr can be read,
    the monitor's next steps sleep the backoff of 5 and then launch
    watch mode again; when the launch succeeds [get_status] reports
    [watch] with the new child, and a new monitor stands at the start of
    the same loop with the stop flag still unset, so the next exit is
    handled the same way, without a bound on the number of restarts. *)
Theorem monitor_restarts_watch s tid pc pid p code r :
  _stop_event (ix s) = false →
  _watch_process (ix s) = Some pid →
  procs s !! pid = Some p →
  poll p = Some code →
  threads s !! tid = Some (WatchMonitor pc) →
  polling pc = true →
  reply_popen r = None →
  reply_read r = None →
  ∃ s',
    exec (repeat (ThreadStep tid, r) (steps_to_restart pc)) s = Some s'
    ∧ events s'
      = (events s ++ (if pc is MonSleep then [Sleep 10] else [])
         ++ [ Sleep 5;
              Popen [cass_binary (ix s); "index"; "--watch"] (data_dir (ix s))
                    (length (procs s)) ])%list
    ∧ mode (get_status s') = "watch"
    ∧ watch_pid (get_status s') = Some (length (procs s))
    ∧ threads s' = (<[tid := Finished]> (threads s) ++ [WatchMonitor MonEntry])%list
    ∧ _stop_event (ix s') = false.
Proof.
  intros Hstop Hwatch Hproc Hpoll Hthread Hpc Hpopen Hread.
  assert (Hlt : tid < length (threads s)) by by eapply lookup_lt_Some.
  destruct s as [self ps ts es ls]. simpl in *.
  assert (Hnew : (ps ++ [Process Running ""])%list !! length ps
                 = Some (Process Running "")) by by apply list_lookup_middle.
  destruct pc; try discriminate Hpc; simpl;
    repeat (first
      [ rewrite Hthread | rewrite Hstop | rewrite Hwatch | rewrite Hproc
      | rewrite Hpoll | rewrite Hpopen | rewrite Hread
      | progress unfold _start_watch_mode
      | rewrite list_lookup_insert_eq by (by rewrite ?length_insert) ]; simpl);
    (eexists; split; [reflexivity|]); simpl;
    unfold get_status, proc_alive; simpl; rewrite Hnew; simpl;
    rewrite <-?app_assoc, ?list_insert_insert_eq;
    rewrite insert_app_l by (by rewrite ?length_insert);
    by rewrite list_insert_insert_eq.
Qed.

(** When the child's stderr cannot be read (it holds bytes that do not
    decode) the monitor ends at line 155, whatever the stop flag is:
    nothing is slept, nothing is launched, no field of the indexer
    changes, and the thread takes no further step. *)
Lemma monitor_dies_on_unreadable_stderr s tid pid p code r e :
  _watch_process (ix s) = Some pid →
  procs s !! pid = Some p →
  poll p = Some code →
  threads s !! tid = Some (WatchMonitor MonPoll) →
  reply_read r = Some e →
  step (ThreadStep tid) r s = Some (set_thread tid Finished s)
  ∧ step (ThreadStep tid) r (set_thread tid Finished s) = None.
Proof.
  intros Hwatch Hproc Hpoll Hthread Hread.
  assert (Hlt : tid < length (threads s)) by by eapply lookup_lt_Some.
  split.
  - cbn [step]. rewrite Hthread. cbn [monitor_step]. rewrite Hwatch. cbn [mbind option_bind].
    by rewrite Hproc, Hpoll, Hread.
  - cbn [step set_thread threads]. by rewrite list_lookup_insert_eq.
Qed.

(** ** The argument builders in closed form *)

(** A key whose [get] is truthy is present. *)
Lemma getitem_truthy arguments key :
  truthy (dict_get arguments key) = true →
  getitem arguments key = Ret (dict_get arguments key).
Proof.
  unfold getitem, dict_get. by destruct (arguments !! key).
Qed.

Lemma extend_value_closed arguments key flag args :
  extend_value arguments key flag args
    = Ret (args ++ opt_value arguments key flag)%list.
Proof.
  unfold extend_value, opt_value, getitem, dict_get.
  destruct (arguments !! key) as [v|]; simpl.
  - destruct (truthy v); simpl; by rewrite ?app_nil_r.
  - by rewrite app_nil_r.
Qed.

(** With arguments that print, every [str] of a builder returns. *)
Lemma extend_str_closed arguments key flag args :
  repr_ok REPR_DEPTH (VDict arguments) = true →
  extend_str arguments key flag args
    = Ret (args ++ opt_str arguments key flag)%list.
Proof.
  intros Hok. unfold extend_str, opt_str.
  destruct (truthy (dict_get arguments key)) eqn:Htruthy; [|by rewrite app_nil_r].
  rewrite (getitem_truthy _ _ Htruthy). cbn [mbind res_bind].
  by rewrite (py_str_get _ _ Hok).
Qed.

(** Whether it returns or not, [extend_str] keeps what was built. *)
Lemma extend_str_prefix arguments key flag args args' :
  extend_str arguments key flag args = Ret args' → args `prefix_of` args'.
Proof.
  unfold extend_str. destruct (truthy (dict_get arguments key)).
  - destruct (getitem arguments key) as [v|e]; [|done]. cbn [mbind res_bind].
    destruct (py_str v) as [t|e]; [|done]. intros [= <-]. by apply prefix_app_r.
  - by intros [= <-].
Qed.

Lemma extend_value_prefix arguments key flag args args' :
  extend_value arguments key flag args = Ret args' → args `prefix_of` args'.
Proof. rewrite extend_value_closed. intros [= <-]. by apply prefix_app_r. Qed.

Lemma append_flag_closed arguments key flag args :
  append_flag arguments key flag args = (args ++ opt_flag arguments key flag)%list.
Proof.
  unfold append_flag, opt_flag.
  destruct (truthy (dict_get arguments key)); by rewrite ?app_nil_r.
Qed.

Lemma append_flag_prefix arguments key flag args :
  args `prefix_of` append_flag arguments key flag args.
Proof. rewrite append_flag_closed. by apply prefix_app_r. Qed.

(** The clamped limit prints when the limit does. *)
Lemma py_min_int_printable v bound c :
  (Z.abs bound < 1000)%Z →
  repr_ok REPR_DEPTH v = true → py_min_int v bound = Ret c →
  repr_ok REPR_DEPTH c = true.
Proof.
  intros Hbound Hv. destruct v as [|b|z| | |]; try done; simpl; intros [= <-].
  - destruct (bound <? _)%Z; [|done].
    rewrite repr_ok_int. by apply int_printable_small.
  - destruct (bound <? z)%Z; [|done].
    rewrite repr_ok_int. by apply int_printable_small.
Qed.

(** [cass_search]: the fixed head, then the optional parts in the order
    of the code. With arguments that print, only a missing [query] and a
    [limit] that does not compare with an int make the builder raise. *)
Lemma search_args_closed arguments :
  repr_ok REPR_DEPTH (VDict arguments) = true →
  search_args arguments
    = (query ← getitem arguments "query";
       limit ← (if truthy (dict_get arguments "limit")
                then clamped ← py_min_int (dict_get arguments "limit") 100;
                     mret [VStr "--limit"; VStr (str_text clamped)]
                else mret []);
       mret ([VStr "search"; query; VStr "--json"]
             ++ opt_value arguments "agent" "--agent"
             ++ opt_value arguments "workspace" "--workspace"
             ++ limit
             ++ opt_str arguments "days" "--days"
             ++ opt_flag arguments "today" "--today"
             ++ opt_flag arguments "highlight" "--highlight")%list).
Proof.
  intros Hok.
  unfold search_args. destruct (getitem arguments "query") as [q|e]; [|done].
  cbn [mbind res_bind].
  do 2 (rewrite extend_value_closed; cbn [mbind res_bind]).
  destruct (truthy (dict_get arguments "limit")) eqn:Hlimit.
  - rewrite (getitem_truthy _ _ Hlimit). cbn [mbind res_bind].
    destruct (py_min_int _ 100) as [c|e] eqn:Hmin; [|reflexivity].
    cbn [mbind res_bind mret res_ret].
    rewrite (py_str_printable c); cycle 1.
    { apply (py_min_int_printable (dict_get arguments "limit") 100); [done| |done].
      unfold dict_get. destruct (arguments !! "limit") as [v|] eqn:Hv.
      - by eapply repr_ok_lookup.
      - apply repr_ok_none. }
    cbn [mbind res_bind mret res_ret].
    rewrite extend_str_closed by done. cbn [mbind res_bind mret res_ret].
    rewrite !append_flag_closed. by rewrite <-!app_assoc.
  - cbn [mbind res_bind mret res_ret].
    rewrite extend_str_closed by done. cbn [mbind res_bind mret res_ret].
    rewrite !append_flag_closed. by rewrite <-!app_assoc.
Qed.

Lemma timeline_args_closed arguments :
  repr_ok REPR_DEPTH (VDict arguments) = true →
  timeline_args arguments
    = Ret ([VStr "timeline"; VStr "--json"]
           ++ timeline_dates arguments
           ++ opt_value arguments "group_by" "--group-by"
           ++ opt_value arguments "agent" "--agent")%list.
Proof.
  intros Hok. unfold timeline_args, timeline_dates.
  destruct (truthy (dict_get arguments "today")); cbn [mbind res_bind mret res_ret].
  - do 2 (rewrite extend_value_closed; cbn [mbind res_bind mret res_ret]).
    by rewrite <-!app_assoc.
  - destruct (truthy (dict_get arguments "days")) eqn:Hdays.
    + rewrite (getitem_truthy _ _ Hdays). cbn [mbind res_bind mret res_ret].
      rewrite (py_str_get _ _ Hok). cbn [mbind res_bind mret res_ret].
      do 2 (rewrite extend_value_closed; cbn [mbind res_bind mret res_ret]).
      by rewrite <-!app_assoc.
    + cbn [mbind res_bind mret res_ret].
      do 2 (rewrite extend_value_closed; cbn [mbind res_bind mret res_ret]).
      by rewrite <-!app_assoc.
Qed.

Lemma context_args_closed arguments :
  repr_ok REPR_DEPTH (VDict arguments) = true →
  context_args arguments
    = (path ← getitem arguments "path";
       mret ([VStr "context"; path; VStr "--json"]
             ++ opt_str arguments "limit" "--limit")%list).
Proof.
  intros Hok.
  unfold context_args. destruct (getitem arguments "path") as [p|e]; [|done].
  cbn [mbind res_bind]. by rewrite extend_str_closed.
Qed.

Lemma view_args_closed arguments :
  repr_ok REPR_DEPTH (VDict arguments) = true →
  view_args arguments
    = (path ← getitem arguments "path";
       mret ([VStr "view"; path; VStr "--json"]
             ++ opt_str arguments "line" "-n"
             ++ opt_str arguments "context" "-C")%list).
Proof.
  intros Hok.
  unfold view_args. destruct (getitem arguments "path") as [p|e]; [|done].
  cbn [mbind res_bind]. rewrite extend_str_closed by done. cbn [mbind res_bind].
  rewrite extend_str_closed by done. cbn [mret res_ret]. by rewrite <-!app_assoc.
Qed.

Lemma expand_args_closed arguments :
  repr_ok REPR_DEPTH (VDict arguments) = true →
  expand_args arguments
    = (path ← getitem arguments "path";
       line ← getitem arguments "line";
       mret ([VStr "expand"; path; VStr "-n"; VStr (str_text line); VStr "--json"]
             ++ opt_str arguments "context" "-C")%list).
Proof.
  intros Hok.
  unfold expand_args, getitem. destruct (arguments !! "path") as [p|]; [|done].
  cbn [mbind res_bind]. destruct (arguments !! "line") as [l|] eqn:Hline; [|done].
  cbn [mbind res_bind]. rewrite (py_str_lookup _ _ _ Hok Hline).
  cbn [mbind res_bind]. by rewrite extend_str_closed.
Qed.

Lemma index_args_closed arguments :
  index_args arguments = (VStr "index" :: opt_flag arguments "full" "--full").
Proof. unfold index_args. by rewrite append_flag_closed. Qed.

(** ** Every tool through one door *)

(** [call_tool] builds the argument list of the tool and hands it to
    [run_cass] with the tool's timeout. *)
Lemma call_tool_result_args name arguments w :
  call_tool_result name arguments w
    = match tool_args name arguments with
      | Some (Ret args) => run_cass args (tool_timeout name) w
      | Some (Exc e) => (Exc e, w)
      | None => (Ret (py_dict [ ("error", VBool true);
                                ("message", VStr ("Unknown tool: " +:+ name)) ]), w)
      end.
Proof.
  unfold call_tool_result, tool_args, tool_timeout.
  repeat (case_decide; [subst; unfold mbind, M_bind, lift;
                        repeat (rewrite decide_False by done);
                        rewrite ?decide_True by done;
                        try done; by case_match|]).
  done.
Qed.

Lemma tool_args_known name arguments :
  name ∈ tool_names ↔ is_Some (tool_args name arguments).
Proof.
  unfold tool_args, tool_names. split.
  - intros Hin. repeat (apply elem_of_cons in Hin as [->|Hin]; [by eexists|]).
    by apply elem_of_nil in Hin.
  - intros [r Hr]. repeat (case_decide; [subst; set_solver|]). done.
Qed.

(** What the [try] statement returns, given what its body does. *)
Lemma call_tool_try_unfold name arguments w :
  call_tool_try name arguments w
    = match call_tool_result name arguments w with
      | (Ret result, w') => (Ret [MkTextContent "text" (json_dumps (Some 2) result)], w')
      | (Exc e, w') => (Ret (error_payload (exn_str e)), w')
      end.
Proof.
  unfold call_tool_try, try_except, mbind, M_bind, mret, M_ret, error_payload.
  by destruct (call_tool_result name arguments w) as [[v|e] w'].
Qed.

(** What [call_tool] returns for arguments that print. *)
Lemma call_tool_unfold name arguments w :
  repr_ok REPR_DEPTH (VDict arguments) = true →
  call_tool name arguments w
    = match tool_args name arguments with
      | Some (Ret args) =>
          match run_cass args (tool_timeout name) w with
          | (Ret result, w') =>
              (Ret [MkTextContent "text" (json_dumps (Some 2) result)], w')
          | (Exc e, w') => (Ret (error_payload (exn_str e)), w')
          end
      | Some (Exc e) => (Ret (error_payload (exn_str e)), w)
      | None =>
          (Ret [MkTextContent "text"
                  (json_dumps (Some 2)
                     (py_dict [ ("error", VBool true);
                                ("message", VStr ("Unknown tool: " +:+ name)) ]))], w)
      end.
Proof.
  intros Hok.
  rewrite call_tool_printable, call_tool_try_unfold, call_tool_result_args by done.
  by destruct (tool_args name arguments) as [[args|e]|].
Qed.

(** Splits a builder that has returned into the steps that returned. *)
Ltac builder_cases :=
  unfold extend_value, extend_str, append_flag, mbind, res_bind, mret, res_ret;
  intros;
  repeat (case_match; simplify_eq; try done).

(** The first argument a builder that returns puts on the command line
    is the tool's name without [cass_]. *)
Lemma tool_args_subcommand name arguments args :
  tool_args name arguments = Some (Ret args) →
  ∃ sub rest, name = "cass_" +:+ sub ∧ args = VStr sub :: rest.
Proof.
  intros Hargs.
  assert (Hin : name ∈ tool_names)
    by (apply (tool_args_known name arguments); by rewrite Hargs).
  unfold tool_names in Hin.
  repeat (apply elem_of_cons in Hin as [->|Hin]);
    [..|by apply elem_of_nil in Hin];
    revert Hargs; unfold tool_args;
    repeat (rewrite decide_False by done); rewrite decide_True by done;
    intros [= Hargs]; revert Hargs.
  - unfold search_args. builder_cases; by eexists _, _.
  - intros <-. by eexists _, _.
  - intros <-. by eexists _, _.
  - unfold timeline_args. builder_cases; by eexists _, _.
  - unfold context_args. builder_cases; by eexists _, _.
  - unfold view_args. builder_cases; by eexists _, _.
  - unfold expand_args. builder_cases; by eexists _, _.
  - unfold export_args. builder_cases; by eexists _, _.
  - intros <-. by eexists _, _.
  - rewrite index_args_closed. intros <-. by eexists _, _.
Qed.

(** Every tool call spawns at most one child. The child is the binary
    with the tool's name without [cass_] as its first argument, runs
    under the tool's timeout (30, 60 for the export, 300 for the index)
    and gets the configured data directory; a name that is no tool
    spawns nothing. *)
Theorem call_tool_spawns name arguments w :
  ∃ spawned,
    (call_tool name arguments w).2 = (w ++ spawned)%list
    ∧ (length spawned ≤ 1)%nat
    ∧ (name ∉ tool_names → spawned = [])
    ∧ ∀ i, i ∈ spawned →
        ∃ sub rest,
          name = "cass_" +:+ sub
          ∧ inv_cmd i = VStr CASS_BINARY :: VStr sub :: rest
          ∧ inv_timeout i = tool_timeout name
          ∧ inv_data_dir i = DATA_DIR.
Proof.
  rewrite call_tool_log.
  destruct (repr_ok REPR_DEPTH (VDict arguments)); cycle 1.
  { exists []. rewrite app_nil_r. repeat split; [simpl; lia|].
    by intros i Hi%elem_of_nil. }
  rewrite call_tool_result_args.
  destruct (tool_args name arguments) as [[args|e]|] eqn:Hargs.
  - rewrite run_cass_log. eexists. split; [reflexivity|].
    destruct (forallb is_str args); simpl; (split; [lia|]); split.
    + intros Hname. destruct Hname. apply (tool_args_known name arguments).
      by rewrite Hargs.
    + intros i ->%list_elem_of_singleton.
      destruct (tool_args_subcommand name arguments args Hargs) as (sub & rest & -> & ->).
      by eexists _, _.
    + done.
    + by intros i Hi%elem_of_nil.
  - exists []. simpl. rewrite app_nil_r. repeat split; [lia|].
    by intros i Hi%elem_of_nil.
  - exists []. simpl. rewrite app_nil_r. repeat split; [lia|].
    by intros i Hi%elem_of_nil.
Qed.

(** A tool call whose arguments print depends on them only through the
    properties that the tool's schema in [list_tools] declares: two such
    calls that agree on them build the same command, spawn the same
    child and return the same payload. The tools without properties
    ignore their arguments. *)
Theorem undeclared_arguments_ignored t (a a' : gmap string value) w :
  t ∈ list_tools →
  (∀ k, k ∈ tool_properties t → a !! k = a' !! k) →
  repr_ok REPR_DEPTH (VDict a) = true →
  repr_ok REPR_DEPTH (VDict a') = true →
  call_tool (tool_name t) a w = call_tool (tool_name t) a' w.
Proof.
  intros Ht Hsame Hok Hok'.
  assert (Hargs : tool_args (tool_name t) a = tool_args (tool_name t) a').
  { unfold list_tools in Ht.
    repeat (apply elem_of_cons in Ht as [->|Ht]);
      [..|by apply elem_of_nil in Ht];
      cbn [tool_name tool_properties] in *; unfold tool_args;
      repeat (rewrite decide_False by done); rewrite decide_True by done;
      try reflexivity; f_equal;
      unfold search_args, timeline_args, context_args, view_args, expand_args,
        export_args, index_args, extend_value, extend_str, append_flag,
        getitem, dict_get, dict_get_default;
      rewrite !Hsame by elem_closed; reflexivity. }
  by rewrite !call_tool_unfold, Hargs.
Qed.

(** An exception of the builder becomes the payload; nothing is spawned. *)
Lemma call_tool_builder_raises name arguments w e :
  repr_ok REPR_DEPTH (VDict arguments) = true →
  tool_args name arguments = Some (Exc e) →
  call_tool name arguments w = (Ret (error_payload (exn_str e)), w).
Proof. intros Hok Hargs. by rewrite call_tool_unfold, Hargs. Qed.

Lemma call_tool_key_error name arguments w k :
  repr_ok REPR_DEPTH (VDict arguments) = true →
  tool_args name arguments = Some (Exc (Exn KeyError ("'" +:+ k +:+ "'"))) →
  call_tool name arguments w = (Ret (error_payload ("'" +:+ k +:+ "'")), w).
Proof. apply call_tool_builder_raises. Qed.

(** The log of a call whose builder returns [args]. *)
Lemma call_tool_built_log name arguments w args :
  repr_ok REPR_DEPTH (VDict arguments) = true →
  tool_args name arguments = Some (Ret args) →
  (call_tool name arguments w).2
    = (w ++ if forallb is_str args
            then [Invocation (VStr CASS_BINARY :: args) (tool_timeout name) DATA_DIR]
            else [])%list.
Proof.
  intros Hok Hargs.
  by rewrite call_tool_log, Hok, call_tool_result_args, Hargs, run_cass_log.
Qed.

(** A tool call whose arguments print and that lacks a parameter its
    schema requires spawns nothing and returns the error payload of the
    [KeyError]: the name, in quotes, of the first required parameter that
    is missing. *)
Theorem missing_required_parameter t (a : gmap string value) w k :
  t ∈ list_tools →
  k ∈ tool_required t →
  a !! k = None →
  repr_ok REPR_DEPTH (VDict a) = true →
  ∃ k', k' ∈ tool_required t
        ∧ a !! k' = None
        ∧ call_tool (tool_name t) a w = (Ret (error_payload ("'" +:+ k' +:+ "'")), w).
Proof.
  intros Ht Hk Hnone Hok. unfold list_tools in Ht.
  repeat (apply elem_of_cons in Ht as [->|Ht]);
    [..|by apply elem_of_nil in Ht];
    cbn [tool_name tool_required] in *;
    try (by apply elem_of_nil in Hk).
  - apply list_elem_of_singleton in Hk as ->. exists "query".
    split; [rewrite !elem_of_cons; auto|]. split; [done|].
    apply call_tool_key_error; [done|]. unfold tool_args. rewrite decide_True by done.
    rewrite search_args_closed by done. unfold getitem. by rewrite Hnone.
  - apply list_elem_of_singleton in Hk as ->. exists "path".
    split; [rewrite !elem_of_cons; auto|]. split; [done|].
    apply call_tool_key_error; [done|]. unfold tool_args.
    repeat (rewrite decide_False by done). rewrite decide_True by done.
    rewrite context_args_closed by done. unfold getitem. by rewrite Hnone.
  - apply list_elem_of_singleton in Hk as ->. exists "path".
    split; [rewrite !elem_of_cons; auto|]. split; [done|].
    apply call_tool_key_error; [done|]. unfold tool_args.
    repeat (rewrite decide_False by done). rewrite decide_True by done.
    rewrite view_args_closed by done. unfold getitem. by rewrite Hnone.
  - destruct (a !! "path") as [p|] eqn:Hpath.
    + apply elem_of_cons in Hk as [->|Hk]; [congruence|].
      apply list_elem_of_singleton in Hk as ->.
      exists "line". split; [rewrite !elem_of_cons; auto|]. split; [done|].
      apply call_tool_key_error; [done|]. unfold tool_args.
      repeat (rewrite decide_False by done). rewrite decide_True by done.
      rewrite expand_args_closed by done. unfold getitem. by rewrite Hpath, Hnone.
    + exists "path". split; [rewrite !elem_of_cons; auto|]. split; [done|].
      apply call_tool_key_error; [done|]. unfold tool_args.
      repeat (rewrite decide_False by done). rewrite decide_True by done.
      rewrite expand_args_closed by done. unfold getitem. by rewrite Hpath.
  - apply list_elem_of_singleton in Hk as ->. exists "path".
    split; [rewrite !elem_of_cons; auto|]. split; [done|].
    apply call_tool_key_error; [done|]. unfold tool_args.
    repeat (rewrite decide_False by done). rewrite decide_True by done.
    unfold export_args, getitem. by rewrite Hnone.
Qed.

Lemma py_join_from_first_non_str i sep items j v :
  first_non_str items = Some (j, v) →
  py_join_from i sep items = Exc (Exn TypeError (join_error (i + j) v)).
Proof.
  revert i j. induction items as [|x rest IH]; intros i j; [done|].
  destruct x; simpl;
    try (intros [= <- <-]; unfold join_error; by rewrite Nat.add_0_r).
  destruct (first_non_str rest) as [[j' v']|]; [|done].
  intros [= <- <-]. rewrite (IH (S i) j' eq_refl).
  by rewrite Nat.add_succ_r.
Qed.

Lemma run_cass_first_non_str args timeout w j v :
  first_non_str args = Some (j, v) →
  run_cass args timeout w = (Exc (Exn TypeError (join_error (S j) v)), w).
Proof.
  intros Hfirst. unfold run_cass, py_join.
  rewrite (py_join_from_first_non_str 0 " " (VStr CASS_BINARY :: args) (S j) v).
  - done.
  - simpl. by rewrite Hfirst.
Qed.

(** A tool call whose arguments print and whose command line would hold
    a value that is no string (a number as [query], [null] as [format],
    ...) spawns nothing: the log line of [run_cass] raises, and the
    payload is the error of the [TypeError], which names the position on
    the command line of the first such value, counted from the binary,
    and its type. *)
Theorem non_str_argument_rejected name arguments w args j v :
  repr_ok REPR_DEPTH (VDict arguments) = true →
  tool_args name arguments = Some (Ret args) →
  first_non_str args = Some (j, v) →
  call_tool name arguments w = (Ret (error_payload (join_error (S j) v)), w).
Proof.
  intros Hok Hargs Hfirst.
  rewrite call_tool_unfold, Hargs by done.
  by rewrite (run_cass_first_non_str args _ w j v Hfirst).
Qed.

Lemma adjacent_app_l a b l1 l2 : adjacent a b l1 → adjacent a b (l1 ++ l2).
Proof.
  induction l1 as [|x [|y l1] IH]; simpl; [done..|].
  intros [Hxy|Hrest]; [by left|right]. by apply IH.
Qed.

Lemma adjacent_app_r a b l1 l2 : adjacent a b l2 → adjacent a b (l1 ++ l2).
Proof.
  intros Hl2. induction l1 as [|x l1 IH]; [done|].
  simpl. destruct (l1 ++ l2)%list eqn:Happ; [by destruct l1, l2|]. by right.
Qed.

(** Adding a binding that prints to a dict that prints. *)
Lemma repr_ok_insert_2 a k v :
  repr_ok REPR_DEPTH (VDict a) = true →
  (∀ n, repr_ok n v = true) →
  repr_ok REPR_DEPTH (VDict (<[k := v]> a)) = true.
Proof.
  destruct REPR_DEPTH as [|n]; [done|]. cbn [repr_ok].
  rewrite !bool_decide_eq_true. intros Hall Hv.
  apply map_Forall_insert_2; [apply Hv|done].
Qed.

Lemma repr_ok_delete_2 a k :
  repr_ok REPR_DEPTH (VDict a) = true →
  repr_ok REPR_DEPTH (VDict (delete k a)) = true.
Proof.
  destruct REPR_DEPTH as [|n]; [done|]. cbn [repr_ok].
  rewrite !bool_decide_eq_true. apply map_Forall_delete.
Qed.

(** ** Limits, dates and formats *)

(** [min(limit, 100)] is no clamp from below: a [cass_search] call whose
    [limit] is an int other than 0 and at most 100, negative ones
    included, forwards [--limit] followed by that number. With typed
    arguments that print exactly one child is spawned. *)
Theorem search_limit_forwarded (a : gmap string value) n w :
  a !! "limit" = Some (VInt n) →
  n ≠ 0%Z →
  (n ≤ 100)%Z →
  ∃ spawned,
    (call_tool "cass_search" a w).2 = (w ++ spawned)%list
    ∧ (∀ i, i ∈ spawned →
         adjacent (VStr "--limit") (VStr (int_str n)) (inv_args i))
    ∧ (search_call_typed a = true →
       repr_ok REPR_DEPTH (VDict a) = true → length spawned = 1).
Proof.
  intros Hlimit Hn0 Hn100. rewrite call_tool_log.
  destruct (repr_ok REPR_DEPTH (VDict a)) eqn:Hok; cycle 1.
  { exists []. rewrite app_nil_r. split_and!; [done| |done].
    by intros i Hi%elem_of_nil. }
  assert (Hbuilt : ∀ args, search_args a = Ret args →
            adjacent (VStr "--limit") (VStr (int_str n)) args).
  { intros args. rewrite search_args_closed by done.
    unfold dict_get at 1 2. rewrite Hlimit.
    cbn [default from_option id truthy py_min_int].
    destruct (Z.eqb_spec n 0); [done|]. destruct (Z.ltb_spec 100 n); [lia|].
    destruct (getitem a "query") as [q|e]; [|done].
    cbn [negb mbind res_bind mret res_ret str_text]. intros [= <-].
    apply (adjacent_app_r _ _ [VStr "search"; q; VStr "--json"]).
    apply (adjacent_app_r _ _ (opt_value a "agent" "--agent")).
    apply (adjacent_app_r _ _ (opt_value a "workspace" "--workspace")).
    apply (adjacent_app_l _ _ [VStr "--limit"; VStr (int_str n)]).
    simpl. by left. }
  rewrite call_tool_result_search.
  destruct (search_args a) as [args|e] eqn:Hargs.
  - rewrite run_cass_log. eexists. split; [reflexivity|]. split.
    + intros i Hi. destruct (forallb is_str args); [|by apply elem_of_nil in Hi].
      apply list_elem_of_singleton in Hi as ->. by apply Hbuilt.
    + intros Htyped _.
      destruct (search_args_typed a n Htyped Hlimit Hok) as (args' & Heq & Hstr).
      rewrite Hargs in Heq. injection Heq as <-. by rewrite Hstr.
  - exists []. simpl. split; [by rewrite app_nil_r|]. split.
    + intros i Hi. by apply elem_of_nil in Hi.
    + intros Htyped _.
      destruct (search_args_typed a n Htyped Hlimit Hok) as (args' & Heq & _).
      congruence.
Qed.

(** [cass_context] does not clamp: with arguments that print and a
    string [path], an int [limit] other than 0 is forwarded as it is,
    above 100 too. *)
Theorem context_limit_not_clamped (a : gmap string value) p n w :
  a !! "path" = Some (VStr p) →
  a !! "limit" = Some (VInt n) →
  n ≠ 0%Z →
  repr_ok REPR_DEPTH (VDict a) = true →
  (call_tool "cass_context" a w).2
    = (w ++ [Invocation [VStr CASS_BINARY; VStr "context"; VStr p; VStr "--json";
                         VStr "--limit"; VStr (int_str n)] 30 DATA_DIR])%list.
Proof.
  intros Hpath Hlimit Hn Hok.
  rewrite (call_tool_built_log _ _ _
             [VStr "context"; VStr p; VStr "--json"; VStr "--limit"; VStr (int_str n)]).
  - done.
  - done.
  - unfold tool_args. repeat (rewrite decide_False by done). rewrite decide_True by done.
    rewrite context_args_closed by done. unfold getitem, opt_str, dict_get.
    rewrite Hpath, Hlimit. cbn [default from_option id truthy].
    by destruct (Z.eqb_spec n 0).
Qed.

(** [cass_timeline], for arguments that print: when [today] is set the
    [days] of the call have no effect, and when neither is set (or
    [days] is 0) the call runs as with [days] 7. *)
Theorem timeline_today_over_days (a : gmap string value) w :
  (truthy (dict_get a "today") = true →
   ∀ d, repr_ok REPR_DEPTH (VDict a) = true →
        repr_ok REPR_DEPTH (VDict (<["days" := d]> a)) = true →
        call_tool "cass_timeline" (<["days" := d]> a) w
        = call_tool "cass_timeline" a w)
  ∧ (truthy (dict_get a "today") = false →
     truthy (dict_get a "days") = false →
     repr_ok REPR_DEPTH (VDict a) = true →
     call_tool "cass_timeline" a w
     = call_tool "cass_timeline" (<["days" := VInt 7]> a) w).
Proof.
  assert (Hcall : ∀ a1 a2 : gmap string value,
            repr_ok REPR_DEPTH (VDict a1) = true →
            repr_ok REPR_DEPTH (VDict a2) = true →
            timeline_args a1 = timeline_args a2 →
            call_tool "cass_timeline" a1 w = call_tool "cass_timeline" a2 w).
  { intros a1 a2 Hok1 Hok2 Heq. rewrite !call_tool_unfold by done.
    unfold tool_args. repeat (rewrite decide_False by done).
    rewrite !decide_True by done. by rewrite Heq. }
  split.
  - intros Htoday d Hok Hokd. apply Hcall; [done..|].
    rewrite !timeline_args_closed by done.
    unfold timeline_dates, opt_value, dict_get in *.
    rewrite (lookup_insert_ne a "days" "today"), (lookup_insert_ne a "days" "group_by"),
      (lookup_insert_ne a "days" "agent") by done.
    by rewrite Htoday.
  - intros Htoday Hdays Hok.
    assert (Hok7 : repr_ok REPR_DEPTH (VDict (<["days" := VInt 7]> a)) = true).
    { apply repr_ok_insert_2; [done|]. intros n.
      rewrite repr_ok_int. by apply int_printable_small. }
    apply Hcall; [done..|]. rewrite !timeline_args_closed by done.
    unfold timeline_dates, opt_value, dict_get in *.
    rewrite (lookup_insert_ne a "days" "today"), (lookup_insert_ne a "days" "group_by"),
      (lookup_insert_ne a "days" "agent") by done.
    rewrite lookup_insert_eq. by rewrite Htoday, Hdays.
Qed.

(** Line 0, for arguments that print: [cass_view] tests the line for
    truth and drops a 0, so the call runs as without [line];
    [cass_expand] does not test it and forwards [-n 0]. *)
Theorem line_zero_dropped_or_forwarded (a : gmap string value) p w :
  a !! "path" = Some (VStr p) →
  a !! "line" = Some (VInt 0) →
  repr_ok REPR_DEPTH (VDict a) = true →
  call_tool "cass_view" a w = call_tool "cass_view" (delete "line" a) w
  ∧ (truthy (dict_get a "context") = false →
     (call_tool "cass_expand" a w).2
       = (w ++ [Invocation [VStr CASS_BINARY; VStr "expand"; VStr p; VStr "-n";
                            VStr "0"; VStr "--json"] 30 DATA_DIR])%list).
Proof.
  intros Hpath Hline Hok. split.
  - assert (Hok' : repr_ok REPR_DEPTH (VDict (delete "line" a)) = true)
      by by apply repr_ok_delete_2.
    rewrite !call_tool_unfold by done.
    unfold tool_args. repeat (rewrite decide_False by done).
    rewrite !decide_True by done. rewrite !view_args_closed by done.
    unfold getitem, opt_str, dict_get.
    rewrite (lookup_delete_ne a "line" "path"), (lookup_delete_ne a "line" "context")
      by done.
    by rewrite lookup_delete_eq, Hline.
  - intros Hcontext.
    rewrite (call_tool_built_log _ _ _
               [VStr "expand"; VStr p; VStr "-n"; VStr "0"; VStr "--json"]).
    + done.
    + done.
    + unfold tool_args. repeat (rewrite decide_False by done).
      rewrite decide_True by done. rewrite expand_args_closed by done.
      unfold getitem, opt_str. by rewrite Hpath, Hline, Hcontext.
Qed.

(** [cass_export] with arguments that print and a string [path]:
    without [format] the command ends in [--format markdown]; a string
    [format] is forwarded as it is, whether the schema lists it or not;
    any other [format], an explicit [null] too, is no default but the
    [TypeError] payload, and nothing is spawned. The child runs under a
    timeout of 60. *)
Theorem export_format (a : gmap string value) p w :
  a !! "path" = Some (VStr p) →
  repr_ok REPR_DEPTH (VDict a) = true →
  (a !! "format" = None →
   (call_tool "cass_export" a w).2
     = (w ++ [Invocation [VStr CASS_BINARY; VStr "export"; VStr p;
                          VStr "--format"; VStr "markdown"] 60 DATA_DIR])%list)
  ∧ (∀ f, a !! "format" = Some (VStr f) →
     (call_tool "cass_export" a w).2
       = (w ++ [Invocation [VStr CASS_BINARY; VStr "export"; VStr p;
                            VStr "--format"; VStr f] 60 DATA_DIR])%list)
  ∧ (∀ f, a !! "format" = Some f → is_str f = false →
     call_tool "cass_export" a w = (Ret (error_payload (join_error 4 f)), w)).
Proof.
  intros Hpath Hok.
  assert (Hargs : tool_args "cass_export" a
                  = Some (Ret [VStr "export"; VStr p; VStr "--format";
                               dict_get_default a "format" (VStr "markdown")])).
  { unfold tool_args. repeat (rewrite decide_False by done).
    rewrite decide_True by done. unfold export_args, getitem. by rewrite Hpath. }
  split; [|split].
  - intros Hformat. rewrite (call_tool_built_log _ _ _ _ Hok Hargs).
    unfold dict_get_default. by rewrite Hformat.
  - intros f Hformat. rewrite (call_tool_built_log _ _ _ _ Hok Hargs).
    unfold dict_get_default. by rewrite Hformat.
  - intros f Hformat Hstr.
    rewrite call_tool_unfold, Hargs by done.
    rewrite (run_cass_first_non_str _ _ w 3 f); [done|].
    unfold dict_get_default. rewrite Hformat. simpl. by destruct f.
Qed.

(** ** The indexer's threads after a stop, and its fallback *)

(** Once the stop flag is set a periodic thread ends within two steps
    and never sleeps again; it runs one more index pass only if it had
    already passed the test of line 185 when the flag was set. *)
Theorem periodic_stops_after_stop s tid pc r :
  _stop_event (ix s) = true →
  threads s !! tid = Some (PeriodicIndexer pc) →
  ∃ s',
    exec (repeat (ThreadStep tid, r) (periodic_steps_to_finish pc)) s = Some s'
    ∧ threads s' = <[tid := Finished]> (threads s)
    ∧ events s'
      = (events s ++ if pc is PerIndex
                     then [Run [cass_binary (ix s); "index"] 300 (data_dir (ix s))]
                     else [])%list
    ∧ procs s' = procs s
    ∧ _stop_event (ix s') = true.
Proof.
  intros Hstop Hthread.
  assert (Hlt : tid < length (threads s)) by by eapply lookup_lt_Some.
  destruct s as [self ps ts es ls]. simpl in *.
  destruct pc; simpl; rewrite Hthread; simpl; rewrite ?Hstop; simpl;
    rewrite ?list_lookup_insert_eq by done; simpl.
  - eexists. split; [reflexivity|]. simpl. by rewrite app_nil_r.
  - eexists. split; [reflexivity|]. simpl. by rewrite app_nil_r.
  - rewrite Hstop. eexists. split; [reflexivity|]. simpl.
    by rewrite list_insert_insert_eq, app_nil_r.
  - unfold _run_index. simpl.
    destruct (reply_index r) as [[rc out err]|e]; simpl;
      [destruct (rc =? 0)%Z|destruct (is_timeout e)]; simpl;
      rewrite list_lookup_insert_eq by done; simpl; rewrite Hstop;
      (eexists; split; [reflexivity|]); simpl;
      by rewrite list_insert_insert_eq.
Qed.

(** A monitor that finds the stop flag set before it has passed the
    test of line 158 ends within three steps: it launches nothing and
    changes no field and no process, and sleeps at most once more, for
    its poll interval. *)
Theorem monitor_stops_after_stop s tid pc r :
  _stop_event (ix s) = true →
  threads s !! tid = Some (WatchMonitor pc) →
  in_backoff pc = false →
  ∃ n s',
    (n ≤ 3)%nat
    ∧ exec (repeat (ThreadStep tid, r) n) s = Some s'
    ∧ threads s' = <[tid := Finished]> (threads s)
    ∧ procs s' = procs s
    ∧ ix s' = ix s
    ∧ (events s' = events s ∨ events s' = (events s ++ [Sleep 10])%list).
Proof.
  intros Hstop Hthread Hpc.
  assert (Hlt : tid < length (threads s)) by by eapply lookup_lt_Some.
  destruct s as [self ps ts es ls]. simpl in *.
  destruct pc; try discriminate Hpc.
  - (* line 147 *)
    destruct (_watch_process self) as [pid|] eqn:Hwatch.
    + eexists 2, _. split; [lia|]. split.
      { simpl. rewrite Hthread. simpl. rewrite Hwatch. simpl.
        rewrite list_lookup_insert_eq by done. simpl. rewrite Hstop. reflexivity. }
      simpl. rewrite list_insert_insert_eq. by auto.
    + eexists 1, _. split; [lia|]. split.
      { simpl. rewrite Hthread. simpl. rewrite Hwatch. reflexivity. }
      simpl. by auto.
  - (* line 150 *)
    eexists 1, _. split; [lia|]. split.
    { simpl. rewrite Hthread. simpl. rewrite Hstop. reflexivity. }
    simpl. by auto.
  - (* lines 152-156 *)
    destruct (_watch_process self ≫= (λ pid, ps !! pid)) as [p|] eqn:Hp.
    + destruct (poll p) as [code|] eqn:Hpoll.
      * destruct (reply_read r) as [e|] eqn:Hread.
        { eexists 1, _. split; [lia|]. split.
          { simpl. rewrite Hthread. simpl. rewrite Hp, Hpoll, Hread. reflexivity. }
          simpl. by auto. }
        eexists 2, _. split; [lia|]. split.
        { simpl. rewrite Hthread. simpl. rewrite Hp, Hpoll, Hread. simpl.
          rewrite list_lookup_insert_eq by done. simpl. rewrite Hstop. reflexivity. }
        simpl. rewrite list_insert_insert_eq. by auto.
      * eexists 3, _. split; [lia|]. split.
        { simpl. rewrite Hthread. simpl. rewrite Hp, Hpoll. simpl.
          rewrite list_lookup_insert_eq by done. simpl.
          rewrite list_lookup_insert_eq by (by rewrite length_insert). simpl.
          rewrite Hstop. reflexivity. }
        simpl. rewrite !list_insert_insert_eq. by auto.
    + eexists 1, _. split; [lia|]. split.
      { simpl. rewrite Hthread. simpl. rewrite Hp. reflexivity. }
      simpl. by auto.
  - (* line 165 *)
    eexists 2, _. split; [lia|]. split.
    { simpl. rewrite Hthread. simpl.
      rewrite list_lookup_insert_eq by done. simpl. rewrite Hstop. reflexivity. }
    simpl. rewrite list_insert_insert_eq. by auto.
  - (* line 158 *)
    eexists 1, _. split; [lia|]. split.
    { simpl. rewrite Hthread. simpl. rewrite Hstop. reflexivity. }
    simpl. by auto.
Qed.

(** A monitor that has passed the test of line 158 does not look at the
    stop flag again: whether or not the flag is set, its next steps end
    in [Popen], and when that succeeds a new watch child runs and
    [get_status] reports [watch]. *)
Theorem monitor_in_backoff_ignores_stop s tid pc r :
  threads s !! tid = Some (WatchMonitor pc) →
  in_backoff pc = true →
  reply_popen r = None →
  ∃ s',
    exec (repeat (ThreadStep tid, r) (steps_to_restart pc)) s = Some s'
    ∧ procs s' = (procs s ++ [Process Running ""])%list
    ∧ _watch_process (ix s') = Some (length (procs s))
    ∧ _stop_event (ix s') = _stop_event (ix s)
    ∧ mode (get_status s') = "watch"
    ∧ watch_pid (get_status s') = Some (length (procs s))
    ∧ threads s' = (<[tid := Finished]> (threads s) ++ [WatchMonitor MonEntry])%list.
Proof.
  intros Hthread Hpc Hpopen.
  assert (Hlt : tid < length (threads s)) by by eapply lookup_lt_Some.
  destruct s as [self ps ts es ls]. simpl in *.
  assert (Hnew : (ps ++ [Process Running ""])%list !! length ps
                 = Some (Process Running "")) by by apply list_lookup_middle.
  destruct pc; try discriminate Hpc; simpl; rewrite Hthread; simpl;
    rewrite ?list_lookup_insert_eq by done; simpl;
    unfold _start_watch_mode; simpl; rewrite Hpopen; simpl;
    (eexists; split; [reflexivity|]); simpl;
    unfold get_status, proc_alive; simpl; rewrite Hnew; simpl;
    rewrite ?insert_app_l by (by rewrite ?length_insert);
    by rewrite ?list_insert_insert_eq.
Qed.

(** When [Popen] raises, [start] in watch mode falls back to the
    periodic loop: on an indexer that was not running and had no watch
    child, no process is spawned, one periodic thread is, and
    [get_status] reports [periodic] with the configured interval. *)
Theorem watch_failure_falls_back s initial_index r e :
  _is_running (ix s) = false →
  _watch_process (ix s) = None →
  reply_popen r = Some e →
  procs (start true initial_index r s) = procs s
  ∧ threads (start true initial_index r s)
    = (threads s ++ [PeriodicIndexer PerLoop])%list
  ∧ get_status (start true initial_index r s)
    = {| is_running := true;
         mode := "periodic";
         watch_pid := None;
         last_index_time := last_index_time (get_status (start true initial_index r s));
         index_count := index_count (get_status (start true initial_index r s));
         index_interval_seconds := Some INDEX_INTERVAL_SECONDS |}.
Proof.
  intros Hrun Hwatch Hpopen.
  assert (Hnew : ∀ ts : list thread,
            (ts ++ [PeriodicIndexer PerLoop])%list !! length ts
            = Some (PeriodicIndexer PerLoop)) by (intros; by apply list_lookup_middle).
  destruct s as [self ps ts es ls]. simpl in *.
  unfold start. simpl. rewrite Hrun.
  unfold _start_watch_mode, _start_periodic_indexing, _run_index, get_status,
    thread_alive.
  destruct initial_index; simpl; rewrite ?Hpopen; simpl.
  - destruct (reply_index r) as [[rc out err]|e']; simpl;
      [destruct (rc =? 0)%Z|destruct (is_timeout e')]; simpl;
      rewrite ?Hpopen; simpl; rewrite ?Hwatch, ?Hnew; done.
  - by rewrite ?Hwatch, ?Hnew.
Qed.

(** The part of the status that does not depend on the index runs. *)
Lemma status_mode_ext s s' :
  _watch_process (ix s') = _watch_process (ix s) →
  _periodic_thread (ix s') = _periodic_thread (ix s) →
  _is_running (ix s') = _is_running (ix s) →
  (∀ pid, proc_alive s' pid = proc_alive s pid) →
  (∀ tid, thread_alive s' tid = thread_alive s tid) →
  mode (get_status s') = mode (get_status s)
  ∧ is_running (get_status s') = is_running (get_status s)
  ∧ watch_pid (get_status s') = watch_pid (get_status s).
Proof.
  unfold get_status. cbn [mode is_running watch_pid].
  intros -> -> -> Hprocs Hthreads.
  destruct (_watch_process (ix s)) as [pid|], (_periodic_thread (ix s)) as [tid|];
    by rewrite ?Hprocs, ?Hthreads.
Qed.

Lemma run_index_frame full r s :
  events (_run_index full r s)
    = (events s
       ++ [Run ([cass_binary (ix s); "index"] ++ if full then ["--full"] else [])
             300 (data_dir (ix s))])%list
  ∧ threads (_run_index full r s) = threads s
  ∧ procs (_run_index full r s) = procs s
  ∧ _watch_process (ix (_run_index full r s)) = _watch_process (ix s)
  ∧ _periodic_thread (ix (_run_index full r s)) = _periodic_thread (ix s)
  ∧ _is_running (ix (_run_index full r s)) = _is_running (ix s)
  ∧ _stop_event (ix (_run_index full r s)) = _stop_event (ix s).
Proof.
  unfold _run_index.
  destruct (reply_index r) as [[rc out err]|e]; simpl;
    [by destruct (rc =? 0)%Z|by destruct (is_timeout e)].
Qed.

(** A manual trigger spawns one thread, and the thread's one step runs
    the index command, with [--full] exactly for a full rebuild; no
    process is spawned, and the mode, the running flag and the watch pid
    that [get_status] reports stay as they were. *)
Theorem manual_trigger_runs_index full r r' s :
  ∃ s',
    exec [(CallTrigger full, r); (ThreadStep (length (threads s)), r')] s = Some s'
    ∧ events s'
      = (events s
         ++ [Run ([cass_binary (ix s); "index"] ++ if full then ["--full"] else [])
               300 (data_dir (ix s))])%list
    ∧ threads s' = (threads s ++ [Finished])%list
    ∧ procs s' = procs s
    ∧ mode (get_status s') = mode (get_status s)
    ∧ is_running (get_status s') = is_running (get_status s)
    ∧ watch_pid (get_status s') = watch_pid (get_status s).
Proof.
  eexists. split.
  { cbn [exec step trigger_index spawn threads].
    rewrite list_lookup_middle by done. reflexivity. }
  destruct (run_index_frame full r' (trigger_index full s))
    as (Hevents & Hthreads & Hprocs & Hwatch & Hperiodic & Hrunning & _).
  assert (Hts : threads (set_thread (length (threads s)) Finished
                           (_run_index full r' (trigger_index full s)))
                = (threads s ++ [Finished])%list).
  { cbn [set_thread threads]. rewrite Hthreads. cbn [trigger_index spawn threads].
    rewrite insert_app_r_alt, Nat.sub_diag by done. done. }
  split; [exact Hevents|]. split; [exact Hts|]. split; [exact Hprocs|].
  apply status_mode_ext; try done.
  - intros pid. unfold proc_alive. cbn [set_thread procs]. by rewrite Hprocs.
  - intros tid. unfold thread_alive. rewrite Hts.
    destruct (decide (tid < length (threads s))) as [Hlt|Hge].
    + by rewrite lookup_app_l.
    + rewrite (lookup_ge_None_2 (threads s)) by lia.
      destruct (decide (tid = length (threads s))) as [->|Hne].
      * by rewrite list_lookup_middle.
      * rewrite lookup_app_r by lia. rewrite lookup_ge_None_2; [done|]. simpl. lia.
Qed.

(** ** What every schedule keeps *)

Ltac evolves_unfold :=
  unfold evolves, consistent, grown, exits_kept; simpl;
  split_and!; [intros (?&?&?&?); split_and!|..].

Lemma evolves_refl s : evolves s s.
Proof. evolves_unfold; try done; lia. Qed.

Lemma evolves_trans s1 s2 s3 : evolves s1 s2 → evolves s2 s3 → evolves s1 s3.
Proof.
  unfold evolves, grown, exits_kept.
  intros (Hc1 & (Hp1 & Ht1 & He1 & Hl1 & Hn1 & Hb1 & Hd1) & Hx1)
         (Hc2 & (Hp2 & Ht2 & He2 & Hl2 & Hn2 & Hb2 & Hd2) & Hx2).
  split_and!; try lia; try congruence; try (by etrans); eauto.
Qed.

Lemma evolves_log l msg s : evolves s (log l msg s).
Proof. evolves_unfold; try done; try lia; by apply prefix_app_r. Qed.

Lemma evolves_emit e s : evolves s (emit e s).
Proof. evolves_unfold; try done; try lia; by apply prefix_app_r. Qed.

Lemma evolves_spawn t s : evolves s (spawn t s).
Proof.
  evolves_unfold; try done; rewrite ?length_app; simpl; try lia.
  intros tid Htid.
  match goal with H : ∀ tid, _ = Some tid → _ |- _ => specialize (H tid Htid) end.
  lia.
Qed.

Lemma evolves_set_thread tid t s : evolves s (set_thread tid t s).
Proof. evolves_unfold; rewrite ?length_insert; try done; lia. Qed.

Lemma evolves_set_stop_event b s : evolves s (with_ix (set_stop_event b) s).
Proof. evolves_unfold; try done; lia. Qed.

Lemma evolves_set_is_running b s : evolves s (with_ix (set_is_running b) s).
Proof. evolves_unfold; try done; lia. Qed.

Lemma evolves_run_index full r s : evolves s (_run_index full r s).
Proof.
  unfold _run_index.
  destruct (reply_index r) as [[rc out err]|e].
  - eapply evolves_trans; [|destruct (returncode _ =? 0)%Z; apply evolves_log].
    eapply evolves_trans; [apply evolves_emit|].
    evolves_unfold; try done; try lia.
  - eapply evolves_trans; [apply evolves_emit|].
    destruct (is_timeout e); apply evolves_log.
Qed.

Lemma evolves_start_periodic s : evolves s (_start_periodic_indexing s).
Proof.
  unfold _start_periodic_indexing.
  eapply evolves_trans; [apply evolves_log|].
  evolves_unfold; try done; rewrite ?length_app; simpl; try lia.
  intros tid [= <-]. lia.
Qed.

Lemma evolves_start_watch r s : evolves s (_start_watch_mode r s).
Proof.
  unfold _start_watch_mode.
  destruct (reply_popen r) as [e|].
  - eapply evolves_trans; [apply evolves_log|].
    eapply evolves_trans; [apply evolves_log|]. apply evolves_start_periodic.
  - eapply evolves_trans; [|apply evolves_log].
    eapply evolves_trans; [|apply evolves_spawn].
    eapply evolves_trans; [apply evolves_log|].
    eapply evolves_trans; [apply evolves_emit|].
    evolves_unfold; try done; rewrite ?length_app; simpl; try lia.
    + intros pid [= <-]. lia.
    + intros pid p code Hp _. by apply lookup_app_l_Some.
Qed.

(** A signal to a live process leaves the exited ones alone. *)
Lemma evolves_alter_alive f pid s :
  proc_alive s pid = true →
  evolves s (set_procs (alter f pid (procs s)) s).
Proof.
  intros Halive.
  evolves_unfold; rewrite ?length_alter; try done; try lia.
  intros pid' p code Hp Hpoll. rewrite list_lookup_alter_ne; [done|].
  intros ->. unfold proc_alive in Halive. by rewrite Hp, Hpoll in Halive.
Qed.

(** Peels the last update off the state on the right. *)
Ltac evolves_back :=
  repeat first
    [ apply evolves_refl
    | eapply evolves_trans;
      [|first [ apply evolves_run_index | apply evolves_start_watch
              | apply evolves_start_periodic
              | apply evolves_log | apply evolves_emit | apply evolves_spawn
              | apply evolves_set_thread | apply evolves_set_stop_event
              | apply evolves_set_is_running
              | apply evolves_alter_alive; eassumption ]] ].

Lemma evolves_start u i r s : evolves s (start u i r s).
Proof.
  unfold start. destruct (_is_running (ix s)) eqn:Hrun; [apply evolves_log|].
  destruct u, i; evolves_back.
Qed.

Lemma evolves_stop r s : evolves s (stop r s).
Proof.
  unfold stop.
  eapply evolves_trans; [|apply evolves_log].
  match goal with |- context [_watch_process (ix ?s0)] => set (s1 := s0) end.
  assert (evolves s s1) as Hs1 by (subst s1; evolves_back).
  destruct (_watch_process (ix s1)) as [pid|]; [|done].
  destruct (proc_alive s1 pid) eqn:Halive; [|done].
  eapply evolves_trans; [exact Hs1|].
  destruct (reply_grace r).
  - eapply evolves_trans; [|apply evolves_alter_alive; exact Halive]. evolves_back.
  - evolves_back.
Qed.

Lemma evolves_monitor_step tid pc r s : evolves s (monitor_step tid pc r s).
Proof. destruct pc; simpl; repeat case_match; evolves_back. Qed.

Lemma evolves_periodic_step tid pc r s : evolves s (periodic_step tid pc r s).
Proof. destruct pc; simpl; repeat case_match; evolves_back. Qed.

Lemma evolves_step l r s s' : step l r s = Some s' → evolves s s'.
Proof.
  destruct l as [u i| |full|tid|pid code err]; simpl.
  - intros [= <-]. apply evolves_start.
  - intros [= <-]. apply evolves_stop.
  - intros [= <-]. apply evolves_spawn.
  - destruct (threads s !! tid) as [[pc|pc|full|]|]; intros [= <-].
    + apply evolves_monitor_step.
    + apply evolves_periodic_step.
    + evolves_back.
  - destruct (proc_alive s pid) eqn:Halive; intros [= <-].
    evolves_unfold; rewrite ?length_insert; try done; try lia.
    intros pid' p c Hp Hpoll. rewrite list_lookup_insert_ne; [done|].
    intros ->. unfold proc_alive in Halive. by rewrite Hp, Hpoll in Halive.
Qed.

Lemma evolves_exec sched s s' : exec sched s = Some s' → evolves s s'.
Proof.
  revert s. induction sched as [|[l r] sched IH]; intros s; simpl.
  - intros [= <-]. apply evolves_refl.
  - destruct (step l r s) as [s1|] eqn:Hstep; [|done].
    intros Hexec. eapply evolves_trans; [by eapply evolves_step|by apply IH].
Qed.

(** Whatever the main thread calls, in whatever order the threads run
    and the children exit, an indexer made by [BackgroundIndexer(...)]
    stays consistent: the count of index runs is not negative, the
    time of the last run is set once the count is not 0, and the handles
    [get_status] reads point at a process and a thread that exist; the
    binary and the data directory never change. *)
Theorem reachable_consistent bin dd sched s' :
  exec sched (MkSystem (init bin dd) [] [] [] []) = Some s' →
  consistent s'
  ∧ cass_binary (ix s') = bin
  ∧ data_dir (ix s') = dd.
Proof.
  intros Hexec. apply evolves_exec in Hexec as (Hc & Hg & _).
  split; [|by destruct Hg as (_ & _ & _ & _ & _ & -> & ->)].
  apply Hc. unfold consistent, init. simpl. split_and!; done.
Qed.

(** Nothing the indexer does brings a process back: along every
    schedule a child that has exited keeps its exit code and its stderr,
    no process and no thread is forgotten, and the requests made and the
    lines logged so far stay at the front of the later ones. *)
Theorem exited_process_is_final sched s s' :
  exec sched s = Some s' →
  (∀ pid p code,
     procs s !! pid = Some p → poll p = Some code →
     procs s' !! pid = Some p ∧ proc_alive s' pid = false)
  ∧ (length (procs s) ≤ length (procs s'))%nat
  ∧ (length (threads s) ≤ length (threads s'))%nat
  ∧ events s `prefix_of` events s'
  ∧ logged s `prefix_of` logged s'
  ∧ (_index_count (ix s) ≤ _index_count (ix s'))%Z.
Proof.
  intros Hexec.
  apply evolves_exec in Hexec as (_ & (Hp & Ht & He & Hl & Hn & _) & Hx).
  split_and!; try done.
  intros pid p code Hpid Hpoll. split; [by eapply Hx|].
  unfold proc_alive. by rewrite (Hx pid p code Hpid Hpoll), Hpoll.
Qed.

(** ** The catalogue, the periodic loop and the HTTP trigger *)

(** Each tool [list_tools] declares is one of the ten names the [/]
    endpoint advertises, and [call_tool] runs it: called with arguments
    that print, holding its required parameters (strings; an integer for
    [line]) and no optional one, it spawns exactly one child, the binary
    with the tool's name without [cass_] as its first argument, under
    the tool's timeout and with the configured data directory. *)
Theorem advertised_tool_runs t (a : gmap string value) w :
  t ∈ list_tools →
  (∀ k, k ∈ tool_required t → ∃ v, a !! k = Some v ∧ required_typed k v = true) →
  (∀ k, k ∈ tool_properties t → k ∉ tool_required t → a !! k = None) →
  repr_ok REPR_DEPTH (VDict a) = true →
  tool_name t ∈ info_tools
  ∧ ∃ sub rest,
      tool_name t = "cass_" +:+ sub
      ∧ (call_tool (tool_name t) a w).2
        = (w ++ [Invocation (VStr CASS_BINARY :: VStr sub :: rest)
                   (tool_timeout (tool_name t)) DATA_DIR])%list.
Proof.
  intros Ht Hreq Hopt Hok.
  assert (Hargs : tool_name t ∈ info_tools
                  ∧ ∃ args, tool_args (tool_name t) a = Some (Ret args)
                            ∧ forallb is_str args = true).
  { unfold list_tools in Ht.
    repeat (apply elem_of_cons in Ht as [->|Ht]); [..|by apply elem_of_nil in Ht];
      cbn [tool_name tool_properties tool_required] in *;
      (split; [unfold info_tools; elem_closed|]);
      unfold tool_args; repeat (rewrite decide_False by done);
      rewrite decide_True by done;
      rewrite ?search_args_closed, ?timeline_args_closed, ?context_args_closed,
        ?view_args_closed, ?expand_args_closed, ?index_args_closed by done;
      unfold export_args, getitem, opt_value, opt_str, opt_flag, timeline_dates,
        dict_get, dict_get_default;
      repeat match goal with
        | |- context [a !! ?k] =>
            first
              [ rewrite (Hopt k) by elem_closed
              | let v := fresh "v" in
                let Hk := fresh "Hk" in
                let Hty := fresh "Hty" in
                destruct (Hreq k) as (v & Hk & Hty); [elem_closed|];
                rewrite Hk; unfold required_typed in Hty;
                first [ rewrite decide_True in Hty by done
                      | rewrite decide_False in Hty by done ];
                destruct v; try discriminate Hty ]
        end;
      simpl; (eexists; split; [reflexivity|reflexivity]). }
  destruct Hargs as (Hinfo & args & Hargs & Hstr).
  destruct (tool_args_subcommand _ _ _ Hargs) as (sub & rest & Hname & ->).
  split; [done|]. exists sub, rest. split; [done|].
  by rewrite (call_tool_built_log _ _ _ _ Hok Hargs), Hstr.
Qed.


Lemma exec_periodic_step tid pc r rest s :
  threads s !! tid = Some (PeriodicIndexer pc) →
  exec ((ThreadStep tid, r) :: rest) s = exec rest (periodic_step tid pc r s).
Proof. intros Hthread. cbn [exec step]. by rewrite Hthread. Qed.

(** A periodic indexer stopped and started again at once. *)
Lemma stop_start_periodic r1 r2 s :
  _watch_process (ix s) = None →
  threads (start false false r2 (stop r1 s))
    = (threads s ++ [PeriodicIndexer PerLoop])%list
  ∧ _periodic_thread (ix (start false false r2 (stop r1 s)))
    = Some (length (threads s))
  ∧ _stop_event (ix (start false false r2 (stop r1 s))) = false
  ∧ _is_running (ix (start false false r2 (stop r1 s))) = true.
Proof.
  intros Hwatch. destruct s as [self ps ts es ls]. simpl in Hwatch.
  unfold stop. simpl. rewrite Hwatch.
  unfold start, _start_periodic_indexing. simpl. done.
Qed.

(** [stop()] does not wait for the periodic thread and [start()] clears
    the stop flag: when both are called while the periodic thread is
    inside an index run, that thread finds the flag unset at its next
    test and goes on looping, beside the thread the new [start()] made;
    the indexer's handle is the new thread. *)
Theorem restart_during_index_keeps_old_thread s tid r1 r2 r3 r4 :
  threads s !! tid = Some (PeriodicIndexer PerIndex) →
  _watch_process (ix s) = None →
  ∃ s',
    exec [ (CallStop, r1); (CallStart false false, r2);
           (ThreadStep tid, r3); (ThreadStep tid, r4) ] s = Some s'
    ∧ threads s'
      = (<[tid := PeriodicIndexer PerWait]> (threads s)
         ++ [PeriodicIndexer PerLoop])%list
    ∧ _periodic_thread (ix s') = Some (length (threads s))
    ∧ _stop_event (ix s') = false
    ∧ _is_running (ix s') = true.
Proof.
  intros Hthread Hwatch.
  assert (Hlt : tid < length (threads s)) by by eapply lookup_lt_Some.
  destruct (stop_start_periodic r1 r2 s Hwatch) as (Hts & Hper & Hstop & Hrun).
  change (exec [ (CallStop, r1); (CallStart false false, r2);
                 (ThreadStep tid, r3); (ThreadStep tid, r4) ] s)
    with (exec [ (ThreadStep tid, r3); (ThreadStep tid, r4) ]
               (start false false r2 (stop r1 s))).
  remember (start false false r2 (stop r1 s)) as s2 eqn:Hs2. clear Hs2.
  destruct (run_index_frame false r3 s2)
    as (_ & Hts3 & _ & _ & Hper3 & Hrun3 & Hstop3).
  exists (set_thread tid (PeriodicIndexer PerWait)
            (set_thread tid (PeriodicIndexer PerLoop) (_run_index false r3 s2))).
  split.
  { rewrite (exec_periodic_step tid PerIndex)
      by (rewrite Hts; by rewrite lookup_app_l).
    cbn [periodic_step].
    rewrite (exec_periodic_step tid PerLoop)
      by (cbn [set_thread threads]; apply list_lookup_insert_eq;
          rewrite Hts3, Hts, length_app; lia).
    cbn [periodic_step set_thread ix]. by rewrite Hstop3, Hstop. }
  cbn [set_thread threads ix].
  rewrite Hts3, Hts, Hper3, Hper, Hstop3, Hstop, Hrun3, Hrun.
  split_and!; try done.
  by rewrite list_insert_insert_eq, insert_app_l.
Qed.

(** The endpoint [/indexer/trigger]: without an indexer it answers 503
    and starts nothing. With one it answers 200 and starts one thread
    that runs one index command, with [--full] exactly when the [full] it
    reports is truthy; [full] is [False] for a request that is no POST,
    for a body that is no JSON, and for a JSON body that is no object,
    and is the body's [full] member as it is (any JSON value) otherwise. *)
Theorem trigger_endpoint_full request a r :
  (background_indexer a = false →
   trigger_index_endpoint request a
     = (MkJSONResponse 503
          (py_dict [ ("error", VStr "Background indexer not initialized") ]), a))
  ∧ (background_indexer a = true →
     ∃ full s',
       (trigger_index_endpoint request a).1
         = MkJSONResponse 200
             (py_dict [ ("status", VStr "indexing"); ("full", full);
                        ("message", VStr "Index operation triggered") ])
       ∧ background_indexer (trigger_index_endpoint request a).2 = true
       ∧ threads (world (trigger_index_endpoint request a).2)
         = (threads (world a) ++ [ManualIndex (truthy full)])%list
       ∧ exec [(ThreadStep (length (threads (world a))), r)]
              (world (trigger_index_endpoint request a).2) = Some s'
       ∧ events s'
         = (events (world a)
            ++ [Run ([cass_binary (ix (world a)); "index"]
                     ++ if truthy full then ["--full"] else [])
                  300 (data_dir (ix (world a)))])%list
       ∧ (method request ≠ "POST" → full = VBool false)
       ∧ (∀ e, request_json request = Exc e → full = VBool false)
       ∧ (∀ body, request_json request = Ret body →
            (∀ d, body ≠ VDict d) → full = VBool false)
       ∧ (∀ d, method request = "POST" →
            request_json request = Ret (VDict d) →
            full = default (VBool false) (d !! "full"))).
Proof.
  unfold trigger_index_endpoint. split; intros Hbg; rewrite Hbg; [done|].
  exists (requested_full request). eexists.
  cbn [fst snd background_indexer world].
  split; [done|]. split; [done|]. split; [done|].
  split.
  { cbn [exec step trigger_index spawn threads].
    rewrite list_lookup_middle by done. reflexivity. }
  split.
  { destruct (run_index_frame (truthy (requested_full request)) r
                (trigger_index (truthy (requested_full request)) (world a)))
      as (Hevents & _).
    exact Hevents. }
  unfold requested_full. split_and!.
  - intros Hmethod. by rewrite decide_False.
  - intros e ->. by case_decide.
  - intros body -> Hbody. case_decide; [|done]. simpl.
    destruct body; try done. by destruct (Hbody d).
  - intros d Hmethod ->. by rewrite decide_True.
Qed.


End Server.

(** ** Concrete runs *)

Abbreviation sample_run_cass :=
  (run_cass "/app/cass" "/data" sample_os_run sample_json_loads).
Abbreviation sample_call_tool :=
  (call_tool "/app/cass" "/data" sample_os_run sample_json_loads
     sample_json_dumps sample_repr 100 sample_repr_error).

(** [run_cass(["index"], 300)] when the child times out. *)
Lemma run_cass_never_raises_witness :
  sample_run_cass [VStr "index"] 300 []
    = (Ret (py_dict [ ("error", VBool true);
                      ("message", VStr "Command timed out after 300s") ]),
       [Invocation [VStr "/app/cass"; VStr "index"] 300 "/data"]).
Proof.
  destruct (run_cass_never_raises "/app/cass" "/data" sample_os_run sample_json_loads
              ["index"] 300 []) as (v & Hrun & Hexc).
  unfold str_args in Hrun. simpl in Hrun. rewrite Hrun.
  f_equal. f_equal. exact (Hexc _ eq_refl).
Defined.

(** C1 fails for an argument list that holds a value that is no string:
    the join of line 274 stands before the [try], and its [TypeError]
    leaves [run_cass]; no child is spawned. *)
Lemma run_cass_non_str_argument_raises :
  sample_run_cass [VStr "search"; VInt 5; VStr "--json"] 30 []
  = (Exc (Exn TypeError "sequence item 2: expected str instance, int found"), []).
Proof. reflexivity. Qed.

(** Exit code 2 with stderr [index corrupted] and a newline. *)
Lemma run_cass_nonzero_exit_witness :
  sample_os_run [] (Invocation [VStr "/app/cass"; VStr "stats"; VStr "--json"] 30 "/data")
    = Ret (Completed 2 " partial " ("index corrupted" +:+ LF))
  ∧ 2%Z ≠ 0%Z
  ∧ (sample_run_cass [VStr "stats"; VStr "--json"] 30 []).1
    = Ret (py_dict [ ("error", VBool true);
                     ("exit_code", VInt 2);
                     ("stderr", VStr "index corrupted");
                     ("stdout", VStr "partial") ]).
Proof.
  split; [reflexivity|]. split; [discriminate|].
  apply (run_cass_nonzero_exit "/app/cass" "/data" sample_os_run sample_json_loads
           ["stats"; "--json"] 30 [] 2 " partial " ("index corrupted" +:+ LF));
    [reflexivity|discriminate].
Defined.


(** C6 fails after a timeout: the error dict has a message and neither
    [stderr] nor [stdout]. *)
Lemma run_cass_timeout_without_stderr :
  ∃ d, (sample_run_cass [VStr "index"] 300 []).1 = Ret (VDict d)
       ∧ d !! "error" = Some (VBool true)
       ∧ d !! "message" = Some (VStr "Command timed out after 300s")
       ∧ d !! "stderr" = None
       ∧ d !! "stdout" = None.
Proof. eexists. split; [reflexivity|]. done. Qed.

(** The two shapes, on the sample runtime. *)
Lemma run_cass_failure_shapes_witness :
  ∃ d, (sample_run_cass [VStr "index"] 300 []).1 = Ret (VDict d)
       ∧ dom d = {[ "error"; "message" ]}
       ∧ d !! "error" = Some (VBool true)
       ∧ d !! "message" = Some (VStr "Command timed out after 300s").
Proof.
  apply (proj1 (proj2 (run_cass_failure_shapes "/app/cass" "/data" sample_os_run
                         sample_json_loads ["index"] 300 []))
           (Exn TimeoutExpired "Command timed out")).
  reflexivity.
Defined.

(** An unknown tool name, and a [cass_search] call without [query]:
    the [KeyError] is caught and serialised. *)
Lemma call_tool_never_raises_witness :
  repr_ok 100 (VDict ∅) = true
  ∧ ("cass_delete" ∉ tool_names)
  ∧ sample_call_tool "cass_delete" ∅ []
    = (Ret [MkTextContent "text"
              (sample_json_dumps (Some 2)
                 (py_dict [ ("error", VBool true);
                            ("message", VStr "Unknown tool: cass_delete") ]))],
       [])
  ∧ sample_call_tool "cass_search" ∅ []
    = (Ret [MkTextContent "text"
              (sample_json_dumps None
                 (py_dict [ ("error", VBool true);
                            ("message", VStr "'query'") ]))],
       []).
Proof.
  assert (Hname : "cass_delete" ∉ tool_names).
  { unfold tool_names. intros Hin.
    repeat (apply elem_of_cons in Hin as [Hin|Hin]; [discriminate Hin|]).
    by apply elem_of_nil in Hin. }
  split; [reflexivity|]. split; [exact Hname|]. split.
  - exact (proj1 (proj2 (call_tool_never_raises "/app/cass" "/data" sample_os_run
                           sample_json_loads sample_json_dumps sample_repr 100
                           sample_repr_error "cass_delete" ∅ [] eq_refl)) Hname).
  - exact (proj2 (proj2 (call_tool_never_raises "/app/cass" "/data" sample_os_run
                           sample_json_loads sample_json_dumps sample_repr 100
                           sample_repr_error "cass_search" ∅ [] eq_refl))
             (Exn KeyError "'query'") [] eq_refl).
Defined.

(** C2 fails for arguments that the log line of line 553 cannot print,
    as [{"query": "auth error", "limit": 10 ** 4300}]: the f-string
    stands before the [try], so the [ValueError] that the conversion of
    the int raises leaves [call_tool], and no child is spawned. One less
    and the limit prints. *)
Lemma call_tool_huge_limit_raises :
  huge_limit !! "limit" = Some (VInt (10 ^ 4300))
  ∧ int_printable (10 ^ 4300) = false
  ∧ int_printable (10 ^ 4300 - 1) = true
  ∧ sample_call_tool "cass_search" huge_limit [] = (Exc sample_repr_error, []).
Proof.
  split; [reflexivity|]. split; [by vm_compute|]. split; [by vm_compute|].
  by vm_compute.
Qed.

(** A [cass_search] call with a [query] that is no string: the log line
    of [run_cass] raises before any child is spawned, and [call_tool]
    serialises the [TypeError]. *)
Example call_tool_non_str_query :
  sample_call_tool "cass_search" (<["query" := VInt 5]> ∅) []
  = (Ret [MkTextContent "text"
            (sample_json_dumps None
               (py_dict [ ("error", VBool true);
                          ("message",
                           VStr "sequence item 2: expected str instance, int found") ]))],
     []).
Proof. reflexivity. Qed.

(** The clamping scenario: [{"query": "auth error", "limit": 250}]. *)
Lemma search_limit_clamped_witness :
  search_250 !! "limit" = Some (VInt 250)
  ∧ (100 < 250)%Z
  ∧ (sample_call_tool "cass_search" search_250 []).2
    = [Invocation [VStr "/app/cass"; VStr "search"; VStr "auth error";
                   VStr "--json"; VStr "--limit"; VStr "100"] 30 "/data"]
  ∧ ∃ spawned,
      (sample_call_tool "cass_search" search_250 []).2 = ([] ++ spawned)%list
      ∧ (∀ i, i ∈ spawned →
           adjacent (VStr "--limit") (VStr "100") (inv_args i)
           ∧ ¬ adjacent (VStr "--limit") (VStr (int_str 250)) (inv_args i))
      ∧ (search_call_typed search_250 = true →
         repr_ok 100 (VDict search_250) = true → length spawned = 1)
      ∧ (repr_ok 100 (VDict search_250) = false → spawned = []).
Proof.
  split; [reflexivity|]. split; [reflexivity|]. split; [reflexivity|].
  apply (search_limit_clamped "/app/cass" "/data" sample_os_run sample_json_loads
           sample_json_dumps sample_repr 100 sample_repr_error search_250 250 []);
    reflexivity.
Defined.

(** The same call with [limit] 0. *)
Lemma search_limit_zero_witness :
  search_0 !! "limit" = Some (VInt 0)
  ∧ (sample_call_tool "cass_search" search_0 []).2
    = [Invocation [VStr "/app/cass"; VStr "search"; VStr "auth error";
                   VStr "--json"] 30 "/data"]
  ∧ sample_call_tool "cass_search" search_0 []
    = sample_call_tool "cass_search" (delete "limit" search_0) [].
Proof.
  split; [reflexivity|]. split; [reflexivity|].
  apply (search_limit_zero "/app/cass" "/data" sample_os_run sample_json_loads
           sample_json_dumps sample_repr 100 sample_repr_error search_0 []).
  reflexivity.
Defined.

(** C9 fails for a pass that exits with code 1: the time moves from
    unset to the time of the failed pass, and the count to 1. *)
Lemma failed_index_pass_sets_last_index_time :
  reply_index reply_index_failed = Ret (Completed 1 "" "index corrupted")
  ∧ last_index_time (get_status 300 fresh_system) = None
  ∧ last_index_time (get_status 300 (_run_index false reply_index_failed fresh_system))
    = Some 2000%Z
  ∧ index_count (get_status 300 (_run_index false reply_index_failed fresh_system))
    = 1%Z
  ∧ logged (_run_index false reply_index_failed fresh_system)
    = [(WARNING, "Index completed with errors: index corrupted")].
Proof. repeat split. Qed.

(** The monitor of [watch_child_exited] restarts watch mode. *)
Lemma monitor_restarts_watch_witness :
  reply_read reply_ok = None
  ∧ _stop_event (ix watch_child_exited) = false
  ∧ _watch_process (ix watch_child_exited) = Some 0
  ∧ procs watch_child_exited !! 0 = Some (Process (Exited 1) "watch failed")
  ∧ threads watch_child_exited !! 0 = Some (WatchMonitor MonEntry)
  ∧ ∃ s',
      exec 300 (repeat (ThreadStep 0, reply_ok) 6) watch_child_exited = Some s'
      ∧ events s'
        = [ Popen ["/app/cass"; "index"; "--watch"] "/data" 0;
            Sleep 5;
            Popen ["/app/cass"; "index"; "--watch"] "/data" 1 ]
      ∧ mode (get_status 300 s') = "watch"
      ∧ watch_pid (get_status 300 s') = Some 1
      ∧ threads s' = [Finished; WatchMonitor MonEntry]
      ∧ _stop_event (ix s') = false.
Proof.
  repeat (split; [reflexivity|]).
  exact (monitor_restarts_watch 300 watch_child_exited 0 MonEntry 0
           (Process (Exited 1) "watch failed") 1 reply_ok
           eq_refl eq_refl eq_refl eq_refl eq_refl eq_refl eq_refl eq_refl).
Defined.

(** C8 fails when the stderr of the watch child does not decode. The
    stop flag is not set and the child has exited; [read()] of line 155
    raises in the monitor, no [try] stands around it, and the thread
    ends: no backoff is slept, watch mode is not launched again, and no
    thread is left that could. [get_status] reports a running indexer
    in mode [stopped]. *)
Lemma undecodable_stderr_ends_monitor :
  ∃ s',
    exec 300 exit_with_undecodable_stderr fresh_system = Some s'
    ∧ _stop_event (ix s') = false
    ∧ procs s' = [Process (Exited 1) ""]
    ∧ threads s' = [Finished]
    ∧ events s' = [Popen ["/app/cass"; "index"; "--watch"] "/data" 0]
    ∧ get_status 300 s' = Status true "stopped" None None 0 None
    ∧ ∀ tid r, step 300 (ThreadStep tid) r s' = None.
Proof.
  eexists. split; [vm_compute; reflexivity|].
  repeat (split; [by vm_compute|]).
  by intros [|[|tid]] r.
Qed.

(** The monitor of [watch_child_exited], about to poll, when the stderr
    of the child does not decode. *)
Lemma monitor_dies_on_unreadable_stderr_witness :
  step 300 (ThreadStep 0) reply_undecodable
       (set_thread 0 (WatchMonitor MonPoll) watch_child_exited)
  = Some (set_thread 0 Finished (set_thread 0 (WatchMonitor MonPoll) watch_child_exited))
  ∧ step 300 (ThreadStep 0) reply_undecodable
         (set_thread 0 Finished (set_thread 0 (WatchMonitor MonPoll) watch_child_exited))
    = None.
Proof.
  exact (monitor_dies_on_unreadable_stderr 300
           (set_thread 0 (WatchMonitor MonPoll) watch_child_exited) 0 0
           (Process (Exited 1) "watch failed") 1 reply_undecodable
           (Exn OtherException
              "'utf-8' codec can't decode byte 0xff in position 0: invalid start byte")
           eq_refl eq_refl eq_refl eq_refl eq_refl).
Defined.

(** [stop()] when the watch child does not exit within 5 seconds of
    SIGTERM: SIGKILL is sent, and the status still reports the child. *)
Lemma stop_status_witness :
  is_running (get_status 300 (stop reply_sigterm_ignored watch_child_running)) = false
  ∧ mode (get_status 300 (stop reply_sigterm_ignored watch_child_running)) = "watch"
  ∧ watch_pid (get_status 300 (stop reply_sigterm_ignored watch_child_running)) = Some 0
  ∧ events (stop reply_sigterm_ignored watch_child_running)
    = [ Popen ["/app/cass"; "index"; "--watch"] "/data" 0;
        Terminate 0; Wait 0 5; Kill 0 ].
Proof.
  split.
  - exact (proj1 (stop_status 300 reply_sigterm_ignored watch_child_running)).
  - exact (proj2 (proj2 (stop_status 300 reply_sigterm_ignored watch_child_running))
             0 eq_refl eq_refl eq_refl).
Defined.

(** The same [stop()], and a second one that finds the child obeying. *)
Lemma stop_twice_witness :
  events (stop reply_ok (stop reply_sigterm_ignored watch_child_running))
  = [ Popen ["/app/cass"; "index"; "--watch"] "/data" 0;
      Terminate 0; Wait 0 5; Kill 0; Terminate 0; Wait 0 5 ].
Proof.
  exact (proj2 (proj2 (proj2 (stop_twice reply_sigterm_ignored reply_ok
                                watch_child_running)))
           0 eq_refl eq_refl eq_refl).
Defined.

(** C7 fails when [stop()] runs during the monitor's backoff. Right after
    [stop()] the status is stopped; then the monitor wakes up and launches
    a watch child (pid 1) that no thread is left to stop: the stop flag
    is set, both monitors have returned, no signal was ever sent, and
    [get_status] reports [watch] with a live child. *)
Lemma stop_during_backoff_leaves_watch_child :
  (∃ s, exec 300 (take 7 stop_during_backoff) fresh_system = Some s
        ∧ _stop_event (ix s) = true
        ∧ get_status 300 s = Status false "stopped" None None 0 None)
  ∧ ∃ s',
      exec 300 stop_during_backoff fresh_system = Some s'
      ∧ _stop_event (ix s') = true
      ∧ get_status 300 s' = Status false "watch" (Some 1) None 0 None
      ∧ proc_alive s' 1 = true
      ∧ threads s' = [Finished; Finished]
      ∧ events s'
        = [ Popen ["/app/cass"; "index"; "--watch"] "/data" 0;
            Sleep 5;
            Popen ["/app/cass"; "index"; "--watch"] "/data" 1 ].
Proof.
  split; eexists; (split; [vm_compute; reflexivity|]); vm_compute; repeat split.
Qed.


(** ** Concrete runs of the tools *)

(** [cass_context] with an [offset] it does not declare. *)
Lemma undeclared_arguments_ignored_witness :
  sample_call_tool "cass_context" (<["offset" := VInt 3]> context_500) []
  = sample_call_tool "cass_context" context_500 [].
Proof.
  apply (undeclared_arguments_ignored "/app/cass" "/data" sample_os_run
           sample_json_loads sample_json_dumps sample_repr 100 sample_repr_error
           (MkTool "cass_context" ["path"; "limit"] ["path"])).
  - unfold list_tools. solve [repeat first [left | right]].
  - intros k Hk. simpl in Hk.
    repeat (apply elem_of_cons in Hk as [->|Hk]; [reflexivity|]).
    by apply elem_of_nil in Hk.
  - reflexivity.
  - reflexivity.
Defined.

(** [cass_expand] without its [line]. *)
Lemma missing_required_parameter_witness :
  ∃ k', k' ∈ ["path"; "line"]
        ∧ only_path !! k' = None
        ∧ sample_call_tool "cass_expand" only_path []
          = (Ret (error_payload sample_json_dumps ("'" +:+ k' +:+ "'")), []).
Proof.
  apply (missing_required_parameter "/app/cass" "/data" sample_os_run
           sample_json_loads sample_json_dumps sample_repr 100 sample_repr_error
           (MkTool "cass_expand" ["path"; "line"; "context"] ["path"; "line"])
           only_path [] "line").
  - unfold list_tools. solve [repeat first [left | right]].
  - simpl. solve [repeat first [left | right]].
  - reflexivity.
  - reflexivity.
Defined.

(** [cass_search] with the query 5. *)
Lemma non_str_argument_rejected_witness :
  sample_call_tool "cass_search" query_5 []
  = (Ret (error_payload sample_json_dumps (join_error 2 (VInt 5))), []).
Proof.
  apply (non_str_argument_rejected "/app/cass" "/data" sample_os_run
           sample_json_loads sample_json_dumps sample_repr 100 sample_repr_error
           "cass_search" query_5 [] [VStr "search"; VInt 5; VStr "--json"]
           1 (VInt 5)); reflexivity.
Defined.

(** [{"query": "auth error", "limit": 20}]. *)
Lemma search_limit_forwarded_witness :
  ∃ spawned,
    (sample_call_tool "cass_search" search_20 []).2 = ([] ++ spawned)%list
    ∧ (∀ i, i ∈ spawned →
         adjacent (VStr "--limit") (VStr (int_str 20)) (inv_args i))
    ∧ (search_call_typed search_20 = true →
       repr_ok 100 (VDict search_20) = true → length spawned = 1).
Proof.
  apply (search_limit_forwarded "/app/cass" "/data" sample_os_run
           sample_json_loads sample_json_dumps sample_repr 100 sample_repr_error
           search_20 20 []);
    [reflexivity|discriminate|discriminate].
Defined.

(** [{"path": "s.jsonl", "limit": 500}]. *)
Lemma context_limit_not_clamped_witness :
  (sample_call_tool "cass_context" context_500 []).2
  = [Invocation [VStr "/app/cass"; VStr "context"; VStr "s.jsonl"; VStr "--json";
                 VStr "--limit"; VStr "500"] 30 "/data"].
Proof.
  apply (context_limit_not_clamped "/app/cass" "/data" sample_os_run
           sample_json_loads sample_json_dumps sample_repr 100 sample_repr_error
           context_500 "s.jsonl" 500 []);
    [reflexivity|reflexivity|discriminate|reflexivity].
Defined.

(** [{"path": "s.jsonl", "line": 0}], viewed and expanded. *)
Lemma line_zero_dropped_or_forwarded_witness :
  sample_call_tool "cass_view" line_0 []
  = sample_call_tool "cass_view" (delete "line" line_0) []
  ∧ (truthy (dict_get line_0 "context") = false →
     (sample_call_tool "cass_expand" line_0 []).2
     = [Invocation [VStr "/app/cass"; VStr "expand"; VStr "s.jsonl"; VStr "-n";
                    VStr "0"; VStr "--json"] 30 "/data"]).
Proof.
  apply (line_zero_dropped_or_forwarded "/app/cass" "/data" sample_os_run
           sample_json_loads sample_json_dumps sample_repr 100 sample_repr_error
           line_0 "s.jsonl" []); reflexivity.
Defined.

(** [cass_export] with a path and no format. *)
Lemma export_format_witness :
  (sample_call_tool "cass_export" only_path []).2
  = [Invocation [VStr "/app/cass"; VStr "export"; VStr "s.jsonl";
                 VStr "--format"; VStr "markdown"] 60 "/data"].
Proof.
  apply (proj1 (export_format "/app/cass" "/data" sample_os_run
                  sample_json_loads sample_json_dumps sample_repr 100 sample_repr_error
                  only_path "s.jsonl" [] eq_refl eq_refl)).
  reflexivity.
Defined.

(** [cass_expand] with a path and the line 12. *)
Lemma advertised_tool_runs_witness :
  "cass_expand" ∈ info_tools
  ∧ ∃ sub rest,
      "cass_expand" = "cass_" +:+ sub
      ∧ (sample_call_tool "cass_expand" line_12 []).2
        = ([] ++ [Invocation (VStr "/app/cass" :: VStr sub :: rest)
                    (tool_timeout "cass_expand") "/data"])%list.
Proof.
  apply (advertised_tool_runs "/app/cass" "/data" sample_os_run
           sample_json_loads sample_json_dumps sample_repr 100 sample_repr_error
           (MkTool "cass_expand" ["path"; "line"; "context"] ["path"; "line"])
           line_12 []).
  - unfold list_tools. solve [repeat first [left | right]].
  - intros k Hk. simpl in Hk.
    repeat (apply elem_of_cons in Hk as [->|Hk];
            [eexists; split; reflexivity|]).
    by apply elem_of_nil in Hk.
  - intros k Hk Hnot. simpl in Hk, Hnot.
    repeat (apply elem_of_cons in Hk as [->|Hk];
            [first [ reflexivity
                   | exfalso; apply Hnot; solve [repeat first [left | right]] ]|]).
    by apply elem_of_nil in Hk.
  - reflexivity.
Defined.

(** ** Concrete runs of the indexer *)

(** The stop flag is set while the periodic thread is about to index. *)
Lemma periodic_stops_after_stop_witness :
  ∃ s',
    exec 300 (repeat (ThreadStep 0, reply_ok) 2) (periodic_at PerIndex true) = Some s'
    ∧ threads s' = [Finished]
    ∧ events s' = [Run ["/app/cass"; "index"] 300 "/data"]
    ∧ procs s' = []
    ∧ _stop_event (ix s') = true.
Proof.
  exact (periodic_stops_after_stop 300 (periodic_at PerIndex true) 0 PerIndex
           reply_ok eq_refl eq_refl).
Defined.

(** The monitor sleeps between two polls when [stop()] is called. *)
Lemma monitor_stops_after_stop_witness :
  ∃ n s',
    (n ≤ 3)%nat
    ∧ exec 300 (repeat (ThreadStep 0, reply_ok) n) (watch_stopped_at MonSleep) = Some s'
    ∧ threads s' = [Finished]
    ∧ procs s' = procs (watch_stopped_at MonSleep)
    ∧ ix s' = ix (watch_stopped_at MonSleep)
    ∧ (events s' = events (watch_stopped_at MonSleep)
       ∨ events s' = (events (watch_stopped_at MonSleep) ++ [Sleep 10])%list).
Proof.
  exact (monitor_stops_after_stop 300 (watch_stopped_at MonSleep) 0 MonSleep
           reply_ok eq_refl eq_refl eq_refl).
Defined.

(** The monitor sleeps its backoff when [stop()] is called. *)
Lemma monitor_in_backoff_ignores_stop_witness :
  ∃ s',
    exec 300 (repeat (ThreadStep 0, reply_ok) 2) (watch_stopped_at MonBackoff) = Some s'
    ∧ procs s' = [Process (Exited (-15)) ""; Process Running ""]
    ∧ _watch_process (ix s') = Some 1
    ∧ _stop_event (ix s') = true
    ∧ mode (get_status 300 s') = "watch"
    ∧ watch_pid (get_status 300 s') = Some 1
    ∧ threads s' = [Finished; WatchMonitor MonEntry].
Proof.
  exact (monitor_in_backoff_ignores_stop 300 (watch_stopped_at MonBackoff) 0
           MonBackoff reply_ok eq_refl eq_refl eq_refl).
Defined.

(** [start(use_watch_mode=True, initial_index=True)] when [Popen] raises. *)
Lemma watch_failure_falls_back_witness :
  procs (start 300 true true reply_popen_failed fresh_system) = []
  ∧ threads (start 300 true true reply_popen_failed fresh_system)
    = [PeriodicIndexer PerLoop]
  ∧ get_status 300 (start 300 true true reply_popen_failed fresh_system)
    = Status true "periodic" None (Some 1000%Z) 1 (Some 300%Z).
Proof.
  exact (watch_failure_falls_back 300 fresh_system true reply_popen_failed
           (Exn OtherException "[Errno 2] No such file or directory: '/app/cass'")
           eq_refl eq_refl eq_refl).
Defined.

(** [start(use_watch_mode=False, initial_index=True)] on a new indexer. *)
Lemma reachable_consistent_witness :
  consistent (start 300 false true reply_ok fresh_system)
  ∧ cass_binary (ix (start 300 false true reply_ok fresh_system)) = "/app/cass"
  ∧ data_dir (ix (start 300 false true reply_ok fresh_system)) = "/data".
Proof.
  exact (reachable_consistent 300 "/app/cass" "/data"
           [(CallStart false true, reply_ok)]
           (start 300 false true reply_ok fresh_system) eq_refl).
Defined.

(** [stop()] when the watch child has already exited with code 1. *)
Lemma exited_process_is_final_witness :
  procs (stop reply_ok watch_child_exited) !! 0%nat
    = Some (Process (Exited 1) "watch failed")
  ∧ proc_alive (stop reply_ok watch_child_exited) 0 = false.
Proof.
  apply (proj1 (exited_process_is_final 300 [(CallStop, reply_ok)]
                  watch_child_exited (stop reply_ok watch_child_exited) eq_refl)
           0%nat (Process (Exited 1) "watch failed") 1%Z);
    reflexivity.
Defined.


(** [stop()] and [start(use_watch_mode=False, initial_index=False)] while
    the periodic thread is inside an index run. *)
Lemma restart_during_index_keeps_old_thread_witness :
  ∃ s',
    exec 300 [ (CallStop, reply_ok); (CallStart false false, reply_ok);
               (ThreadStep 0, reply_ok); (ThreadStep 0, reply_ok) ]
         (periodic_at PerIndex false) = Some s'
    ∧ threads s' = [PeriodicIndexer PerWait; PeriodicIndexer PerLoop]
    ∧ _periodic_thread (ix s') = Some 1
    ∧ _stop_event (ix s') = false
    ∧ _is_running (ix s') = true.
Proof.
  exact (restart_during_index_keeps_old_thread 300 (periodic_at PerIndex false) 0
           reply_ok reply_ok reply_ok reply_ok eq_refl eq_refl).
Defined.

(** ** Startup *)

(** The candidate the loop returns is one of the list, not empty and
    executable. *)
Lemma first_candidate_usable exe cs p :
  Startup.first_candidate exe cs = Ret p →
  p ≠ "" ∧ exe p = true ∧ Some p ∈ cs.
Proof.
  induction cs as [|[c|] cs IH]; simpl; [done| |].
  - destruct (String.eqb_spec c "") as [->|Hne]; simpl.
    + intros Hrest. destruct (IH Hrest) as (? & ? & ?).
      split_and!; [done..|by right].
    + destruct (exe c) eqn:Hexe.
      * intros [= <-]. split_and!; [done..|by left].
      * intros Hrest. destruct (IH Hrest) as (? & ? & ?).
        split_and!; [done..|by right].
  - intros Hrest. destruct (IH Hrest) as (? & ? & ?).
    split_and!; [done..|by right].
Qed.

(** When the loop raises, no candidate is usable. *)
Lemma first_candidate_none exe cs e :
  Startup.first_candidate exe cs = Exc e →
  ∀ p, Some p ∈ cs → p ≠ "" → exe p = false.
Proof.
  induction cs as [|[c|] cs IH]; simpl; intros Hexc p Hin Hne.
  - by apply elem_of_nil in Hin.
  - destruct (String.eqb_spec c "") as [->|Hc]; simpl in Hexc.
    + apply elem_of_cons in Hin as [[= ->]|Hin]; [done|by apply IH].
    + destruct (exe c) eqn:Hexe; [done|].
      apply elem_of_cons in Hin as [[= ->]|Hin]; [done|by apply IH].
  - apply elem_of_cons in Hin as [[=]|Hin]. by apply IH.
Qed.

(** The binary the server is configured with at import. Either
    [find_cass_binary] found it: then it is a non-empty path of an
    executable file, the value of [CASS_BINARY] in the environment or
    one of the five candidates. Or [find_cass_binary] raised: then the
    server goes on with [/app/cass], and neither that path nor any other
    candidate nor the environment's value is an executable file. A
    usable value of [CASS_BINARY] in the environment wins over every
    candidate, and without one [/app/cass] wins over the others. *)
Theorem cass_binary_resolved environ exe cargo which :
  let found := Startup.find_cass_binary environ exe cargo which in
  let binary := Startup.CASS_BINARY environ exe cargo which in
  ((found = Ret binary
    ∧ binary ≠ "" ∧ exe binary = true
    ∧ (environ !! "CASS_BINARY" = Some binary
       ∨ Some binary ∈ Startup.candidates cargo which))
   ∨ ((∃ e, found = Exc e)
      ∧ binary = "/app/cass"
      ∧ exe "/app/cass" = false
      ∧ ∀ p, environ !! "CASS_BINARY" = Some p
             ∨ Some p ∈ Startup.candidates cargo which →
             p ≠ "" → exe p = false))
  ∧ (∀ p, environ !! "CASS_BINARY" = Some p → p ≠ "" → exe p = true →
          binary = p)
  ∧ ((∀ p, environ !! "CASS_BINARY" = Some p → p ≠ "" → exe p = false) →
     exe "/app/cass" = true → binary = "/app/cass").
Proof.
  intros found binary. subst found binary.
  unfold Startup.CASS_BINARY, Startup.find_cass_binary.
  assert (Happ : exe "/app/cass" = true →
                 Startup.first_candidate exe (Startup.candidates cargo which)
                 = Ret "/app/cass")
    by (intros Happ; simpl; by rewrite Happ).
  assert (Hcs : Some "/app/cass" ∈ Startup.candidates cargo which) by by left.
  set (cs := Startup.candidates cargo which) in *.
  split_and!.
  - destruct (environ !! "CASS_BINARY") as [env_binary|] eqn:Henv.
    + destruct (String.eqb_spec env_binary "") as [->|Hne]; cbn [negb andb].
      * destruct (Startup.first_candidate exe cs) as [p|e] eqn:Hfirst.
        -- left. apply first_candidate_usable in Hfirst as (? & ? & ?).
           split_and!; [done..|by right].
        -- right. split; [by eexists|]. split; [done|].
           pose proof (first_candidate_none _ _ _ Hfirst) as Hnone.
           split; [by apply Hnone|].
           intros p [[= <-]|Hin] Hp; [done|by apply Hnone].
      * destruct (exe env_binary) eqn:Hexe.
        -- left. split_and!; [done..|by left].
        -- destruct (Startup.first_candidate exe cs) as [p|e] eqn:Hfirst.
           ++ left. apply first_candidate_usable in Hfirst as (? & ? & ?).
              split_and!; [done..|by right].
           ++ right. split; [by eexists|]. split; [done|].
              pose proof (first_candidate_none _ _ _ Hfirst) as Hnone.
              split; [by apply Hnone|].
              intros p [[= <-]|Hin] Hp; [done|by apply Hnone].
    + destruct (Startup.first_candidate exe cs) as [p|e] eqn:Hfirst.
      * left. apply first_candidate_usable in Hfirst as (? & ? & ?).
        split_and!; [done..|by right].
      * right. split; [by eexists|]. split; [done|].
        pose proof (first_candidate_none _ _ _ Hfirst) as Hnone.
        split; [by apply Hnone|].
        intros p [[=]|Hin] Hp. by apply Hnone.
  - intros p -> Hne Hexe. rewrite Hexe.
    by destruct (String.eqb_spec p "").
  - intros Henv Hexe. pose proof (Happ Hexe) as Hfirst.
    destruct (environ !! "CASS_BINARY") as [env_binary|]; [|by rewrite Hfirst].
    destruct (String.eqb_spec env_binary "") as [->|Hne]; cbn [negb andb];
      [by rewrite Hfirst|].
    by rewrite (Henv env_binary eq_refl Hne), Hfirst.
Qed.
